(** * tap_ms_teams/client.py: MicrosoftGraphClient

    A shallow embedding of the Microsoft Graph client of the tap
    ([src/tap_ms_teams/client.py]) and the properties of its URL builder,
    its request executor with the retry decorator, its login and its
    pagination loop.

    Layout: the Python values the client handles ([Py]), the three
    [urllib.parse] functions that [build_url] calls ([Urllib]), the effect
    monad of the client ([M]), the client itself, and then the theorems. *)

From Stdlib Require Import String Ascii ZArith List Bool Lia DecimalString.
Import ListNotations.

Local Open Scope list_scope.
Local Open Scope string_scope.

(* ===================================================================== *)
(** ** Python values, exceptions and the few built-ins the client uses   *)
(* ===================================================================== *)

Module Py.

(** The objects that flow through the client: configuration entries,
    decoded JSON bodies, header values, URLs.  JSON numbers are integers
    here (floats do not occur in what the client reads); a [VDict] lists
    the items of a dict in insertion order, keys are [str].  Text is a
    sequence of code points below 256. *)
#[warnings="-register-all"]
Inductive value : Type :=
| VNone
| VBool (b : bool)
| VInt (z : Z)
| VStr (s : string)
| VList (l : list value)
| VDict (d : list (string * value)).

Definition dict : Type := list (string * value).

(** The exception classes that can travel through [make_request].
    [Server5xxError] and [Server42xRateLimitError] are the two classes the
    module declares; [ConnectionError] is the built-in class the decorator
    names (the module imports no other class of this name);
    [LibraryError] stands for any other exception raised below the client
    (by [requests]), tagged with its class name.  What [requests] raises
    when a connection fails is [requests.exceptions.ConnectionError], which
    is no subclass of the built-in class and so a [LibraryError] here. *)
Inductive exn : Type :=
| Server5xxError
| Server42xRateLimitError
| ConnectionError
| RuntimeError (text : string)
| Exception (msg : string)
| TypeError
| AttributeError
| ValueError
| LibraryError (cls : string).

Inductive result (A : Type) : Type :=
| Ret (a : A)
| Raise (e : exn).
Arguments Ret {A} a.
Arguments Raise {A} e.

Definition squote : ascii := "'"%char.
Definition dquote : ascii := ascii_of_nat 34.
Definition backslash : ascii := ascii_of_nat 92.

Definition str1 (c : ascii) : string := String c EmptyString.

Fixpoint contains (c : ascii) (s : string) : bool :=
  match s with
  | EmptyString => false
  | String x r => Ascii.eqb x c || contains c r
  end.

Fixpoint join (sep : string) (l : list string) : string :=
  match l with
  | [] => EmptyString
  | [x] => x
  | x :: r => x ++ sep ++ join sep r
  end.

Definition hexdigit (upper : bool) (n : nat) : ascii :=
  match String.get n (if upper then "0123456789ABCDEF" else "0123456789abcdef") with
  | Some c => c
  | None => "0"%char
  end.

Definition hex2 (upper : bool) (c : ascii) : string :=
  let n := nat_of_ascii c in
  String (hexdigit upper (n / 16)) (str1 (hexdigit upper (n mod 16))).

(** [str.isprintable] on one code point below 256: the C0 and C1 controls,
    DEL, the no-break space and the soft hyphen are not printable. *)
Definition isprintable (c : ascii) : bool :=
  let n := nat_of_ascii c in
  ((32 <=? n) && (n <? 127) || (161 <=? n) && negb (n =? 173))%nat.

(** [repr] of a [str]: single quotes unless the text has a single quote and
    no double quote. *)
Definition repr_char (q : ascii) (c : ascii) : string :=
  if Ascii.eqb c q || Ascii.eqb c backslash then String backslash (str1 c)
  else if Ascii.eqb c (ascii_of_nat 9) then String backslash "t"
  else if Ascii.eqb c (ascii_of_nat 10) then String backslash "n"
  else if Ascii.eqb c (ascii_of_nat 13) then String backslash "r"
  else if isprintable c then str1 c
  else String backslash ("x" ++ hex2 false c).

Fixpoint repr_chars (q : ascii) (s : string) : string :=
  match s with
  | EmptyString => EmptyString
  | String c r => repr_char q c ++ repr_chars q r
  end.

Definition repr_str (s : string) : string :=
  let q := if contains squote s && negb (contains dquote s) then dquote else squote in
  String q (repr_chars q s ++ str1 q).

Definition str_int (z : Z) : string := NilZero.string_of_int (Z.to_int z).

Fixpoint repr (v : value) : string :=
  match v with
  | VNone => "None"
  | VBool b => if b then "True" else "False"
  | VInt z => str_int z
  | VStr s => repr_str s
  | VList l => "[" ++ join ", " (map repr l) ++ "]"
  | VDict d =>
      "{" ++ join ", " (map (fun kv => let '(k, x) := kv in
                                       repr_str k ++ ": " ++ repr x) d) ++ "}"
  end.

(** [str(v)], which is also what ['{}'.format(v)] inserts. *)
Definition str (v : value) : string :=
  match v with
  | VStr s => s
  | _ => repr v
  end.

(** Truth value of an object, as tested by [if x:] and [while x:]. *)
Definition truthy (v : value) : bool :=
  match v with
  | VNone => false
  | VBool b => b
  | VInt z => negb (z =? 0)%Z
  | VStr s => negb (s =? EmptyString)%string
  | VList l => match l with [] => false | _ => true end
  | VDict d => match d with [] => false | _ => true end
  end.

(** [d.get(k, default)] on a dict. *)
Fixpoint lookup (k : string) (d : dict) : option value :=
  match d with
  | [] => None
  | (k', x) :: r => if (k' =? k)%string then Some x else lookup k r
  end.

Definition dict_get (d : dict) (k : string) (default : value) : value :=
  match lookup k d with
  | Some x => x
  | None => default
  end.

(** [d[k] = x]: replaces the value in place when the key is there, appends
    the item otherwise. *)
Fixpoint dict_set (k : string) (x : value) (d : dict) : dict :=
  match d with
  | [] => [(k, x)]
  | (k', y) :: r => if (k' =? k)%string then (k', x) :: r else (k', y) :: dict_set k x r
  end.

(** [obj.get(k, default)] on an arbitrary object: only a dict has [get]. *)
Definition get (obj : value) (k : string) (default : value) : result value :=
  match obj with
  | VDict d => Ret (dict_get d k default)
  | _ => Raise AttributeError
  end.

Fixpoint chars (s : string) : list value :=
  match s with
  | EmptyString => []
  | String c r => VStr (str1 c) :: chars r
  end.

(** [acc.extend(data)]: [data] is iterated; a str yields its characters, a
    dict its keys, and [None], a bool or an int is not iterable. *)
Definition extend (acc : list value) (data : value) : result (list value) :=
  match data with
  | VList l => Ret (acc ++ l)%list
  | VStr s => Ret (acc ++ chars s)%list
  | VDict d => Ret (acc ++ map (fun kv => VStr (fst kv)) d)%list
  | VNone | VBool _ | VInt _ => Raise TypeError
  end.

End Py.

Import Py.

(* ===================================================================== *)
(** ** urllib.parse: urlparse, urlencode, urlunparse                     *)
(* ===================================================================== *)

(** [build_url] is three calls into [urllib.parse].  The functions below
    follow the standard library's code (CPython 3.9) on text: splitting is
    by the first [:], [//], [#], [?] and the last-segment [;], exactly as
    [urlsplit], [_splitnetloc] and [_splitparams] do it.  The result cache
    (which does not change results) and the NFKC check of a non-ASCII
    network location are not part of the model.  Later releases of the
    parser first strip leading control characters and spaces, remove every
    tab, CR and LF, and validate a host in brackets; on text that has none
    of these they split in the same way. *)
Module Urllib.

Record ParseResult : Type := mkParseResult {
  scheme : string;
  netloc : string;
  path : string;
  params : string;
  query : string;
  fragment : string
}.

Definition is_upper (c : ascii) : bool :=
  let n := nat_of_ascii c in ((65 <=? n) && (n <=? 90))%nat.
Definition is_lower (c : ascii) : bool :=
  let n := nat_of_ascii c in ((97 <=? n) && (n <=? 122))%nat.
Definition is_digit (c : ascii) : bool :=
  let n := nat_of_ascii c in ((48 <=? n) && (n <=? 57))%nat.

(** [scheme_chars]: letters, digits and [+-.] *)
Definition scheme_char (c : ascii) : bool :=
  is_upper c || is_lower c || is_digit c || contains c "+-.".

Fixpoint forallb_str (p : ascii -> bool) (s : string) : bool :=
  match s with
  | EmptyString => true
  | String c r => p c && forallb_str p r
  end.

Definition lower_char (c : ascii) : ascii :=
  if is_upper c then ascii_of_nat (nat_of_ascii c + 32) else c.

Fixpoint lower (s : string) : string :=
  match s with
  | EmptyString => EmptyString
  | String c r => String (lower_char c) (lower r)
  end.

(** [s.find(c)]: the first position of [c]. *)
Definition find (c : ascii) (s : string) : option nat := index 0 (str1 c) s.

(** [s[i:]] and [s[:i]] *)
Definition from (i : nat) (s : string) : string := substring i (String.length s) s.
Definition upto (i : nat) (s : string) : string := substring 0 i s.

(** [s.rfind(c)]: the last position of [c]. *)
Fixpoint rfind (c : ascii) (s : string) : option nat :=
  match s with
  | EmptyString => None
  | String x r =>
      match rfind c r with
      | Some i => Some (S i)
      | None => if Ascii.eqb x c then Some 0%nat else None
      end
  end.

(** [s.split(c, 1)] when [c] occurs in [s]: the text before the first [c]
    and the text after it. *)
Definition split1 (c : ascii) (s : string) : string * string :=
  match find c s with
  | Some i => (upto i s, from (S i) s)
  | None => (s, EmptyString)
  end.

(** The first position at or after [start] of one of [/ ? #], or the
    length of the text. *)
Definition netloc_end (url : string) (start : nat) : nat :=
  fold_left
    (fun delim c =>
       match index start (str1 c) url with
       | Some wdelim => Nat.min delim wdelim
       | None => delim
       end)
    ["/"%char; "?"%char; "#"%char] (String.length url).

Definition _splitnetloc (url : string) (start : nat) : string * string :=
  let delim := netloc_end url start in
  (substring start (delim - start) url, from delim url).

Definition uses_netloc : list string :=
  [EmptyString; "ftp"; "http"; "gopher"; "nntp"; "telnet"; "imap"; "wais";
   "file"; "mms"; "https"; "shttp"; "snews"; "prospero"; "rtsp"; "rtspu";
   "rsync"; "svn"; "svn+ssh"; "sftp"; "nfs"; "git"; "git+ssh"; "ws"; "wss"].

Definition uses_params : list string :=
  [EmptyString; "ftp"; "hdl"; "prospero"; "http"; "imap"; "https"; "shttp";
   "rtsp"; "rtspu"; "sip"; "sips"; "mms"; "sftp"; "tel"].

Definition mem (s : string) (l : list string) : bool :=
  existsb (String.eqb s) l.

(** [urlsplit(url)] with the default empty scheme and fragments allowed:
    scheme, netloc, path, query, fragment.  A network location with an
    unmatched bracket is a [ValueError]. *)
Definition urlsplit (url : string)
  : result (string * string * string * string * string) :=
  let '(scheme, url) :=
    match find ":"%char url with
    | Some (S i') =>
        let i := S i' in
        if forallb_str scheme_char (upto i url)
        then (lower (upto i url), from (S i) url)
        else (EmptyString, url)
    | _ => (EmptyString, url)
    end in
  let '(netloc, url) :=
    if (upto 2 url =? "//")%string then _splitnetloc url 2 else (EmptyString, url) in
  if contains "["%char netloc && negb (contains "]"%char netloc)
     || contains "]"%char netloc && negb (contains "["%char netloc)
  then Raise ValueError
  else
    let '(url, fragment) :=
      if contains "#"%char url then split1 "#"%char url else (url, EmptyString) in
    let '(url, query) :=
      if contains "?"%char url then split1 "?"%char url else (url, EmptyString) in
    Ret (scheme, netloc, url, query, fragment).

Definition _splitparams (url : string) : string * string :=
  let cut i := (upto i url, from (S i) url) in
  if contains "/"%char url then
    match rfind "/"%char url with
    | Some r =>
        match index r (str1 ";"%char) url with
        | Some i => cut i
        | None => (url, EmptyString)
        end
    | None => (url, EmptyString)
    end
  else
    match find ";"%char url with
    | Some i => cut i
    | None => (url, EmptyString)
    end.

Definition urlparse (url : string) : result ParseResult :=
  match urlsplit url with
  | Raise e => Raise e
  | Ret (scheme, netloc, url, query, fragment) =>
      let '(url, params) :=
        if mem scheme uses_params && contains ";"%char url
        then _splitparams url else (url, EmptyString) in
      Ret (mkParseResult scheme netloc url params query fragment)
  end.

Definition nonempty (s : string) : bool := negb (s =? EmptyString)%string.

Definition urlunsplit (scheme netloc url query fragment : string) : string :=
  let url :=
    if nonempty netloc
       || (nonempty scheme && mem scheme uses_netloc && negb (upto 2 url =? "//")%string)
    then
      let url := if nonempty url && negb (upto 1 url =? "/")%string
                 then "/" ++ url else url in
      "//" ++ netloc ++ url
    else url in
  let url := if nonempty scheme then scheme ++ ":" ++ url else url in
  let url := if nonempty query then url ++ "?" ++ query else url in
  let url := if nonempty fragment then url ++ "#" ++ fragment else url in
  url.

Definition urlunparse (p : ParseResult) : string :=
  let url := if nonempty (params p) then path p ++ ";" ++ params p else path p in
  urlunsplit (scheme p) (netloc p) url (query p) (fragment p).

(** [_ALWAYS_SAFE]: letters, digits and [_.-~] *)
Definition always_safe (c : ascii) : bool :=
  is_upper c || is_lower c || is_digit c || contains c "_.-~".

(** The UTF-8 bytes of one code point below 256. *)
Definition utf8 (c : ascii) : list ascii :=
  let n := nat_of_ascii c in
  if (n <? 128)%nat then [c]
  else [ascii_of_nat (192 + n / 64); ascii_of_nat (128 + n mod 64)].

Definition quote_byte (safe : string) (b : ascii) : string :=
  if (nat_of_ascii b <? 128)%nat && (always_safe b || contains b safe)
  then str1 b else "%" ++ hex2 true b.

(** [quote(s, safe)]: every byte of the UTF-8 text that is not safe becomes
    [%XX]. *)
Fixpoint quote (safe : string) (s : string) : string :=
  match s with
  | EmptyString => EmptyString
  | String c r =>
      fold_right (fun b acc => quote_byte safe b ++ acc) EmptyString (utf8 c)
      ++ quote safe r
  end.

Fixpoint replace_char (a b : ascii) (s : string) : string :=
  match s with
  | EmptyString => EmptyString
  | String c r => String (if Ascii.eqb c a then b else c) (replace_char a b r)
  end.

(** [quote_plus(s)] with the default empty [safe]. *)
Definition quote_plus (s : string) : string :=
  if negb (contains " "%char s) then quote EmptyString s
  else replace_char " "%char "+"%char (quote " " s).

(** [urlencode(query)] on a mapping (or a sequence of pairs), [doseq] off:
    one [key=value] per item in iteration order, joined by [&]. *)
Definition urlencode (q : dict) : string :=
  join "&" (map (fun kv => let '(k, v) := kv in
                           quote_plus k ++ "=" ++ quote_plus (str v)) q).

End Urllib.

Import Urllib.

(* ===================================================================== *)
(** ** build_url                                                         *)
(* ===================================================================== *)

(** [build_url(baseurl, version, path, args_dict)], a static method: parse
    the base, overwrite entry 2 (the path) and entry 4 (the query) of the
    six parts, and put the parts together again. *)
Definition build_url (baseurl version path : string) (args_dict : dict)
  : result string :=
  match urlparse baseurl with
  | Raise e => Raise e
  | Ret url_parts =>
      let url_parts :=
        mkParseResult (scheme url_parts) (netloc url_parts)
                      (version ++ "/" ++ path)
                      (params url_parts)
                      (urlencode args_dict)
                      (fragment url_parts) in
      Ret (urlunparse url_parts)
  end.

(* ===================================================================== *)
(** ** The client object, the network and the effect monad               *)
(* ===================================================================== *)

(** What [requests.Session] is asked to send: [session.get(url,
    headers=headers)] fills [req_headers] and leaves [req_data] at [None];
    [session.post(url, data=data)] fills [req_data] and passes no headers. *)
Record request : Type := mkRequest {
  req_method : string;
  req_url : value;
  req_headers : dict;
  req_data : value
}.

(** What the client reads of a response: [status_code], [text] and
    [json()], which is [None] here when the body does not decode (then
    [json()] raises a [ValueError]). *)
Record response : Type := mkResponse {
  status_code : Z;
  text : string;
  json : option value
}.

(** The answer of the network to one request: a response, or an exception
    raised by the transport. *)
Inductive reply : Type :=
| Response (r : response)
| Fails (e : exn).

(** What the client does to the world, in order: a request handed to the
    session, a [time.sleep] of the retry decorator, and a started
    [threading.Timer].  The decorator is used with the default jitter of the
    library: for the next value [v] of its wait generator it sleeps
    [random.uniform(0, v)] seconds.  The draw is not modelled: [Backoff v]
    records the value [v], which bounds the time slept and is not the time
    slept. *)
Inductive event : Type :=
| Sent (r : request)
| Backoff (bound : Z)
| TimerStarted (interval : Z).

(** The fields of [MicrosoftGraphClient] set by [__init__], together with
    the events so far.  [login_timer] holds the interval of the timer object
    last stored. *)
Record state : Type := mkState {
  config : dict;
  login_timer : option Z;
  access_token : value;
  client_secret : value;
  client_id : value;
  tenant_id : value;
  trace : list event
}.

(** [MicrosoftGraphClient(config)] *)
Definition __init__ (config : dict) : state :=
  mkState config None VNone VNone VNone VNone [].

(** A computation of the client: from a state to a result (a value or a
    raised exception) and the state after it; [None] when a budget of the
    model is used up (the depth of the nesting of [make_request] and
    [login], the number of iterations of the pagination loop). *)
Definition M (A : Type) : Type := state -> option (result A * state).

Definition ret {A} (a : A) : M A := fun st => Some (Ret a, st).
Definition raise {A} (e : exn) : M A := fun st => Some (Raise e, st).

Definition bind {A B} (c : M A) (k : A -> M B) : M B :=
  fun st =>
    match c st with
    | None => None
    | Some (Ret a, st1) => k a st1
    | Some (Raise e, st1) => Some (Raise e, st1)
    end.

Notation "x <- c ;; k" := (bind c (fun x => k))
  (at level 61, c at next level, right associativity).
Notation "c ;; k" := (bind c (fun _ => k))
  (at level 61, right associativity).

Definition lift {A} (r : result A) : M A := fun st => Some (r, st).

Definition read {A} (f : state -> A) : M A := fun st => Some (Ret (f st), st).
Definition modify (f : state -> state) : M unit := fun st => Some (Ret tt, f st).

(** [try: body finally: fin]: [fin] runs whichever way [body] ends, and the
    outcome of [body] stands unless [fin] raises itself. *)
Definition try_finally {A} (body : M A) (fin : M unit) : M A :=
  fun st =>
    match body st with
    | None => None
    | Some (r, st1) =>
        match fin st1 with
        | None => None
        | Some (Ret _, st2) => Some (r, st2)
        | Some (Raise e, st2) => Some (Raise e, st2)
        end
    end.

(** [try: body except <classes matched by handles>: handler] *)
Definition try_except {A} (body : M A) (handles : exn -> bool) (handler : exn -> M A)
  : M A :=
  fun st =>
    match body st with
    | Some (Raise e, st1) => if handles e then handler e st1 else Some (Raise e, st1)
    | other => other
    end.

(** The state after the events [evs] took place. *)
Definition emit (evs : list event) (st : state) : state :=
  mkState (config st) (login_timer st) (access_token st) (client_secret st)
          (client_id st) (tenant_id st) (trace st ++ evs).

Definition log (e : event) (st : state) : state := emit [e] st.

Definition set_access_token (v : value) (st : state) : state :=
  mkState (config st) (login_timer st) v (client_secret st)
          (client_id st) (tenant_id st) (trace st).

Definition set_credentials (cid secret tenant : value) (st : state) : state :=
  mkState (config st) (login_timer st) (access_token st) secret cid tenant (trace st).

Definition set_login_timer (interval : Z) (st : state) : state :=
  mkState (config st) (Some interval) (access_token st) (client_secret st)
          (client_id st) (tenant_id st) (trace st).

(* ===================================================================== *)
(** ** Constants of the module                                           *)
(* ===================================================================== *)

(** [TOKEN_URL.format(tenant_id=...)] *)
Definition TOKEN_URL (tenant_id : value) : string :=
  "https://login.microsoftonline.com/" ++ str tenant_id ++ "/oauth2/v2.0/token".
Definition SCOPE : string := "https://graph.microsoft.com/.default".
Definition BASE_GRAPH_URL : string := "https://graph.microsoft.com".
Definition TOKEN_EXPIRATION_PERIOD : Z := 3599.
Definition TOP_API_PARAM_DEFAULT : Z := 500.

(** [class GraphVersion(Enum)] and the [value] of its members. *)
Inductive GraphVersion : Type := BETA | V1.

Definition GraphVersion_value (v : GraphVersion) : string :=
  match v with
  | BETA => "beta"
  | V1 => "v1.0"
  end.

(** The class attribute [MicrosoftGraphClient.MAX_TRIES]; the decorator of
    [make_request] is given its own literal 5. *)
Definition MAX_TRIES : nat := 5.

(* ===================================================================== *)
(** ** The retry decorator                                               *)
(* ===================================================================== *)

(** The classes listed in [backoff.on_exception]. *)
Definition retried (e : exn) : bool :=
  match e with
  | Server5xxError | ConnectionError | Server42xRateLimitError => true
  | _ => false
  end.

(** [backoff.expo(factor=2)]: the n-th value is [factor * 2 ** n]. *)
Definition expo (factor : Z) (n : nat) : Z := (factor * 2 ^ Z.of_nat n)%Z.

(** The sleep of the decorator for the value [bound] of the wait generator:
    a random time between 0 and [bound] seconds. *)
Definition sleep (bound : Z) : M unit := modify (log (Backoff bound)).

(** The loop of [backoff.on_exception]: call the target; on a listed
    exception give up when this was try number [max_tries], otherwise sleep
    (a random time up to the next value of the wait generator) and call
    again.  [more] is the
    number of tries still allowed after the current one and [n] the number
    of waits taken so far. *)
Fixpoint retry {A} (factor : Z) (more n : nat) (target : M A) : M A :=
  try_except target retried
    (fun e =>
       match more with
       | O => raise e
       | S more' => sleep (expo factor n) ;; retry factor more' (S n) target
       end).

Definition on_exception {A} (max_tries : nat) (factor : Z) (target : M A) : M A :=
  retry factor (max_tries - 1) 0 target.

(* ===================================================================== *)
(** ** MicrosoftGraphClient                                              *)
(* ===================================================================== *)

Section Client.

(** The network the session talks to: its answer to a request may depend
    on everything that happened before. *)
Variable network : list event -> request -> reply.

Definition send (r : request) : M response :=
  fun st =>
    let st1 := log (Sent r) st in
    match network (trace st) r with
    | Response resp => Some (Ret resp, st1)
    | Fails e => Some (Raise e, st1)
    end.

Definition session_get (url : value) (headers : dict) : M response :=
  send (mkRequest "GET" url headers VNone).

Definition session_post (url : value) (data : value) : M response :=
  send (mkRequest "POST" url [] data).

(** [response.json()] *)
Definition response_json (r : response) : M value :=
  match json r with
  | Some v => ret v
  | None => raise ValueError
  end.

(** The [headers] dict that [make_request] builds first: the bearer token
    of the client, and the configured user agent when there is one. *)
Definition headers_of (st : state) : dict :=
  let headers := [("Authorization", VStr ("Bearer " ++ str (access_token st)))] in
  if truthy (dict_get (config st) "user_agent" VNone)
  then dict_set "User-Agent" (dict_get (config st) "user_agent" VNone) headers
  else headers.

(** The body of [make_request], below the decorator.  [login] is
    [self.login].  Calls of the logger only write to the log and are left
    out, here and in the other methods. *)
Definition make_request_body (login : M unit)
           (method : string) (url params data : value) : M value :=
  headers <- read headers_of ;;
  response <-
    (if (method =? "GET")%string then session_get url headers
     else if (method =? "POST")%string then session_post url data
     else raise (Exception "Unsupported HTTP method")) ;;
  (if (status_code response =? 401)%Z then login
   else if (status_code response =? 429)%Z then raise Server42xRateLimitError
   else if (status_code response >=? 500)%Z then raise Server5xxError
   else ret tt) ;;
  if negb (existsb (Z.eqb (status_code response)) [200; 201; 202]%Z)
  then raise (RuntimeError (text response))
  else response_json response.

Definition start_login_timer : M unit :=
  modify (set_login_timer TOKEN_EXPIRATION_PERIOD) ;;
  modify (log (TimerStarted TOKEN_EXPIRATION_PERIOD)).

(** The body of [login]; [make_request] is [self.make_request], the
    decorated method. *)
Definition login_body (make_request : string -> value -> value -> value -> M value)
  : M unit :=
  cfg <- read config ;;
  modify (set_credentials (dict_get cfg "client_id" VNone)
                          (dict_get cfg "client_secret" VNone)
                          (dict_get cfg "tenant_id" VNone)) ;;
  try_finally
    (cid <- read client_id ;;
     secret <- read client_secret ;;
     tenant <- read tenant_id ;;
     let body := VDict [("grant_type", VStr "client_credentials");
                        ("client_id", cid);
                        ("client_secret", secret);
                        ("scope", VStr SCOPE)] in
     result <- make_request "POST" (VStr (TOKEN_URL tenant)) VNone body ;;
     token <- lift (Py.get result "access_token" VNone) ;;
     modify (set_access_token token))
    start_login_timer.

(** [make_request] as callers see it: the body under
    [backoff.on_exception(backoff.expo, (Server5xxError, ConnectionError,
    Server42xRateLimitError), max_tries=5, factor=2)].  [make_request] and
    [login] call each other; [depth] bounds how deep that goes.  A run that
    needs more depth has no result in the model: the model does not say
    what the interpreter does with a nesting that gets too deep (CPython
    raises [RecursionError] there). *)
Fixpoint make_request (depth : nat) (method : string) (url params data : value)
  : M value :=
  match depth with
  | O => fun _ => None
  | S d =>
      on_exception 5 2
        (make_request_body (login_body (make_request d)) method url params data)
  end.

Definition login (depth : nat) : M unit := login_body (make_request depth).

(** The [while next_url:] loop of [get_all_resources]; [pages] bounds the
    number of iterations. *)
Fixpoint fetch_pages (request : value -> M value) (pages : nat)
         (next_url : value) (response : list value) : M (list value) :=
  if truthy next_url then
    match pages with
    | O => fun _ => None
    | S pages' =>
        body <- request next_url ;;
        if truthy body then
          next_url <- lift (Py.get body "@odata.nextLink" VNone) ;;
          data <- lift (Py.get body "value" VNone) ;;
          response <- lift (extend response data) ;;
          fetch_pages request pages' next_url response
        else
          fetch_pages request pages' VNone response
    end
  else ret response.

(** The [args] dict of [get_all_resources]: the hints that are set. *)
Definition query_args (top orderby filter_param : value) : dict :=
  let args := [] in
  let args := if truthy top then dict_set "$top" top args else args in
  let args := if truthy orderby then dict_set "$orderby" orderby args else args in
  let args := if truthy filter_param then dict_set "$filter" filter_param args else args in
  args.

Definition get_all_resources (depth pages : nat) (version endpoint : string)
           (top orderby filter_param : value) : M (list value) :=
  let args := query_args top orderby filter_param in
  next_url <- lift (build_url BASE_GRAPH_URL version endpoint args) ;;
  fetch_pages (fun url => make_request depth "GET" url VNone VNone)
              pages (VStr next_url) [].

End Client.

(* ===================================================================== *)
(** ** Vocabulary of the statements                                      *)
(* ===================================================================== *)

(** The request that [make_request] hands to the session for a supported
    method, in state [st]. *)
Definition outgoing (method : string) (url data : value) (st : state) : request :=
  if (method =? "GET")%string then mkRequest "GET" url (headers_of st) VNone
  else mkRequest "POST" url [] data.

(** The status codes after which [make_request] returns the decoded body. *)
Definition accepted (status : Z) : bool :=
  existsb (Z.eqb status) [200; 201; 202]%Z.

(** A reply after which the decorator calls again: a 429, a status of 500
    or more, or a listed exception from the transport. *)
Definition transient (rp : reply) : bool :=
  match rp with
  | Response r =>
      (status_code r =? 429)%Z || (status_code r >=? 500)%Z
  | Fails e => retried e
  end.

(** The exception [make_request_body] raises on a transient reply. *)
Definition error_of (rp : reply) : exn :=
  match rp with
  | Response r => if (status_code r =? 429)%Z then Server42xRateLimitError
                  else Server5xxError
  | Fails e => e
  end.

(** The state in which [login] leaves the client when it ends: the timer is
    stored and started. *)
Definition armed (st : state) : state :=
  log (TimerStarted TOKEN_EXPIRATION_PERIOD) (set_login_timer TOKEN_EXPIRATION_PERIOD st).

(** The form body of the token request. *)
Definition token_request_body (st : state) : value :=
  VDict [("grant_type", VStr "client_credentials");
         ("client_id", dict_get (config st) "client_id" VNone);
         ("client_secret", dict_get (config st) "client_secret" VNone);
         ("scope", VStr SCOPE)].

(** The state of the client when [login] has read the credentials. *)
Definition with_credentials (st : state) : state :=
  set_credentials (dict_get (config st) "client_id" VNone)
                  (dict_get (config st) "client_secret" VNone)
                  (dict_get (config st) "tenant_id" VNone) st.

(** A network that never answers 401. *)
Definition never_unauthorized (network : list event -> request -> reply) : Prop :=
  forall h q r, network h q = Response r -> status_code r <> 401%Z.

(** The call of [make_request] that [login] makes in state [st]. *)
Definition token_call (network : list event -> request -> reply) (depth : nat)
           (st : state) : option (result value * state) :=
  make_request network depth "POST"
               (VStr (TOKEN_URL (dict_get (config st) "tenant_id" VNone)))
               VNone (token_request_body st) (with_credentials st).

(** [pages_from request url st ls st']: from the cursor [url] and the state
    [st], the requests of the loop are answered by non-empty objects whose
    ['value'] lists are [ls], in this order, each one served at the
    ['@odata.nextLink'] of the one before; the last has no cursor, and
    [st'] is the state after the last request. *)
Inductive pages_from (request : value -> M value)
  : value -> state -> list (list value) -> state -> Prop :=
| pages_end url st :
    truthy url = false ->
    pages_from request url st [] st
| pages_next url st d l st1 ls st2 :
    truthy url = true ->
    request url st = Some (Ret (VDict d), st1) ->
    d <> [] ->
    lookup "value" d = Some (VList l) ->
    pages_from request (dict_get d "@odata.nextLink" VNone) st1 ls st2 ->
    pages_from request url st (l :: ls) st2.

(** The number of requests in a history. *)
Definition sent_count (h : list event) : nat :=
  List.length (filter (fun ev => match ev with Sent _ => true | _ => false end) h).

(** A network that plays a script: the n-th request gets the n-th reply,
    and [otherwise] once the script is over. *)
Definition scripted (script : list reply) (otherwise : reply)
  : list event -> request -> reply :=
  fun h _ => nth (sent_count h) script otherwise.

(** A network that gives the same reply to every request. *)
Definition always (rp : reply) : list event -> request -> reply :=
  fun _ _ => rp.

Definition ok (body : value) : reply := Response (mkResponse 200 "ok" (Some body)).
Definition status (code : Z) (text : string) : reply :=
  Response (mkResponse code text None).

(** The events of [k] tries of the request [q] under the decorator, when
    [n] waits were taken before: the request, and before every further try
    the sleep bounded by the next value of the wait generator. *)
Fixpoint tries_trace (q : request) (k n : nat) : list event :=
  match k with
  | O => []
  | S k' =>
      Sent q :: match k' with
                | O => []
                | S _ => Backoff (expo 2 n) :: tries_trace q k' (S n)
                end
  end.

(** The records one page adds: what [extend] takes out of its ['value']. *)
Definition page_records (d : dict) : result (list value) :=
  extend [] (dict_get d "value" VNone).

(** A network on which every page has a cursor: each answer is accepted,
    decodes to an object with records and a truthy ['@odata.nextLink']. *)
Definition endless (network : list event -> request -> reply) : Prop :=
  forall h q, exists r d l,
    network h q = Response r /\ accepted (status_code r) = true
    /\ json r = Some (VDict d) /\ page_records d = Ret l
    /\ truthy (dict_get d "@odata.nextLink" VNone) = true.

(** [chain network hdrs url h ds]: on the history [h], a GET at [url] with
    the headers [hdrs] is answered by an accepted response that decodes to
    the non-empty object [d1] with records, the GET at the cursor of [d1] by
    [d2], and so on through [ds]; the cursor of the last page is falsy (or
    [url] is, when [ds] is empty). *)
Inductive chain (network : list event -> request -> reply) (hdrs : dict)
  : value -> list event -> list dict -> Prop :=
| chain_end url h :
    truthy url = false ->
    chain network hdrs url h []
| chain_page url h r d l ds :
    truthy url = true ->
    network h (mkRequest "GET" url hdrs VNone) = Response r ->
    accepted (status_code r) = true ->
    json r = Some (VDict d) ->
    d <> [] ->
    page_records d = Ret l ->
    chain network hdrs (dict_get d "@odata.nextLink" VNone)
          (h ++ [Sent (mkRequest "GET" url hdrs VNone)])%list ds ->
    chain network hdrs url h (d :: ds).

(** The records of a sequence of pages, and the GETs that fetch them. *)
Fixpoint records (ds : list dict) : list value :=
  match ds with
  | [] => []
  | d :: ds' =>
      (match page_records d with Ret l => l | Raise _ => [] end ++ records ds')%list
  end.

Fixpoint gets (hdrs : dict) (url : value) (ds : list dict) : list event :=
  match ds with
  | [] => []
  | d :: ds' =>
      Sent (mkRequest "GET" url hdrs VNone)
      :: gets hdrs (dict_get d "@odata.nextLink" VNone) ds'
  end.

(** [fetch_fails request k url st e st']: from the cursor [url] and the
    state [st], the loop meets the exception [e] at its [k]-th request:
    the request raises it, or returns a truthy body that is no object
    ([AttributeError]), or an object whose ['value'] cannot be iterated
    ([TypeError]); the pages before are non-empty objects with records. *)
Inductive fetch_fails (request : value -> M value)
  : nat -> value -> state -> exn -> state -> Prop :=
| fails_request url st e st1 :
    truthy url = true ->
    request url st = Some (Raise e, st1) ->
    fetch_fails request 1 url st e st1
| fails_not_object url st body st1 :
    truthy url = true ->
    request url st = Some (Ret body, st1) ->
    truthy body = true ->
    (forall d, body <> VDict d) ->
    fetch_fails request 1 url st AttributeError st1
| fails_records url st d e st1 :
    truthy url = true ->
    request url st = Some (Ret (VDict d), st1) ->
    d <> [] ->
    page_records d = Raise e ->
    fetch_fails request 1 url st e st1
| fails_later k url st d l st1 e st2 :
    truthy url = true ->
    request url st = Some (Ret (VDict d), st1) ->
    d <> [] ->
    page_records d = Ret l ->
    fetch_fails request k (dict_get d "@odata.nextLink" VNone) st1 e st2 ->
    fetch_fails request (S k) url st e st2.


(** An event of a read with the headers [hdrs]: a GET with these headers
    and no body, or a wait of the decorator; never a started timer. *)
Definition read_event (hdrs : dict) (ev : event) : Prop :=
  match ev with
  | Sent q => req_method q = "GET" /\ req_headers q = hdrs /\ req_data q = VNone
  | Backoff _ => True
  | TimerStarted _ => False
  end.

(** The characters [quote_plus] puts out: letters, digits, [_.-~], the [+]
    that stands for a space and the [%] and hexadecimal digits of an
    escape; and the characters of an encoded query, which has [=] and [&]
    besides. *)
Definition quoted_char (c : ascii) : bool :=
  always_safe c || Ascii.eqb c "+"%char || Ascii.eqb c "%"%char.

Definition query_char (c : ascii) : bool :=
  quoted_char c || Ascii.eqb c "="%char || Ascii.eqb c "&"%char.

(** A resource server that rejects the token of every GET while the token
    endpoint keeps failing with a retried error. *)
Definition locked_out (network : list event -> request -> reply) : Prop :=
  (forall h q, req_method q = "GET" ->
               exists r, network h q = Response r /\ status_code r = 401%Z)
  /\ (forall h q, req_method q = "POST" -> transient (network h q) = true).



(** The events that are requests with the method [m]. *)
Definition count_sent (m : string) (evs : list event) : nat :=
  List.length (filter (fun ev => match ev with
                                 | Sent q => (req_method q =? m)%string
                                 | _ => false
                                 end) evs).

Definition count_timers (evs : list event) : nat :=
  List.length (filter (fun ev => match ev with TimerStarted _ => true | _ => false end) evs).

(** Concrete clients, pages and networks used to run the client. *)
Module Scenario.

Definition cfg : dict :=
  [("client_id", VStr "cid"); ("client_secret", VStr "secret");
   ("tenant_id", VStr "tenant"); ("user_agent", VStr "tap-ms-teams")].

(** A client that holds the token [T1] from an earlier login. *)
Definition st0 : state := set_access_token (VStr "T1") (__init__ cfg).

Definition users_url : value := VStr "https://graph.microsoft.com/v1.0/users".
Definition U2 : string := "https://graph.microsoft.com/v1.0/users?$skiptoken=2".

Definition a : value := VDict [("id", VInt 1)].
Definition b : value := VDict [("id", VInt 2)].
Definition c : value := VDict [("id", VInt 3)].

Definition P1 : dict := [("@odata.nextLink", VStr U2); ("value", VList [a; b])].
Definition P2 : dict := [("value", VList [c])].

(** A page that is not empty and has no ['value']. *)
Definition P_novalue : dict := [("@odata.context", VStr "users")].

(** A token response, and a 200 response of the token endpoint that has
    no ['access_token']. *)
Definition token_T2 : value := VDict [("token_type", VStr "Bearer"); ("access_token", VStr "T2")].
Definition no_token : value := VDict [("token_type", VStr "Bearer")].

Definition get_users : request := outgoing "GET" users_url VNone st0.

(** The token request of a client configured with [cfg]. *)
Definition token_request : request :=
  mkRequest "POST" (VStr "https://login.microsoftonline.com/tenant/oauth2/v2.0/token")
            [] (token_request_body st0).

End Scenario.

(** More pages and networks to run the client on. *)
Module Cases.

Definition U3 : string := "https://graph.microsoft.com/v1.0/users?$skiptoken=3".
Definition d : value := VDict [("id", VInt 4)].

Definition Q1 : dict := Scenario.P1.
Definition Q2 : dict := [("@odata.nextLink", VStr U3); ("value", VList [Scenario.c])].
Definition Q3 : dict := [("value", VList [d]); ("@odata.nextLink", VNone)].

(** A network that answers a request from what the request is: the first
    page at the users URL, the second at [U2], the last at [U3], and 404
    elsewhere. *)
Definition graph : list event -> request -> reply :=
  fun _ q =>
    match req_url q with
    | VStr u =>
        if (u =? "https://graph.microsoft.com/v1.0/users")%string then ok (VDict Q1)
        else if (u =? Scenario.U2)%string then ok (VDict Q2)
        else if (u =? U3)%string then ok (VDict Q3)
        else status 404 "not found"
    | _ => status 404 "not found"
    end.

(** A resource server that rejects every token while the token endpoint is
    down: 401 to a GET, 503 to a POST. *)
Definition locked_out : list event -> request -> reply :=
  fun _ q => if (req_method q =? "GET")%string then status 401 "unauthorized"
             else status 503 "unavailable".

End Cases.

(* ===================================================================== *)
(** ** Basic facts: events, the monad, the retry loop                    *)
(* ===================================================================== *)

Lemma emit_emit (a b : list event) (st : state) :
  emit b (emit a st) = emit (a ++ b)%list st.
Proof. unfold emit; simpl. now rewrite <- app_assoc. Qed.

Lemma log_emit (e : event) (a : list event) (st : state) :
  log e (emit a st) = emit (a ++ [e])%list st.
Proof. apply emit_emit. Qed.

Lemma trace_emit (a : list event) (st : state) :
  trace (emit a st) = (trace st ++ a)%list.
Proof. reflexivity. Qed.

Lemma outgoing_emit (method : string) (url data : value) (a : list event) (st : state) :
  outgoing method url data (emit a st) = outgoing method url data st.
Proof. reflexivity. Qed.

Lemma accepted_iff (s : Z) :
  accepted s = true <-> (s = 200 \/ s = 201 \/ s = 202)%Z.
Proof.
  unfold accepted; simpl. rewrite !orb_true_iff, !Z.eqb_eq.
  intuition (try discriminate; auto).
Qed.

Section RetryFacts.

Context {A : Type}.
Variables (factor : Z) (target : M A).

Lemma retry_returns more n st a st1 :
  target st = Some (Ret a, st1) ->
  retry factor more n target st = Some (Ret a, st1).
Proof. intros H. destruct more; simpl; unfold try_except; now rewrite H. Qed.

Lemma retry_diverges more n st :
  target st = None -> retry factor more n target st = None.
Proof. intros H. destruct more; simpl; unfold try_except; now rewrite H. Qed.

Lemma retry_escapes more n st e st1 :
  target st = Some (Raise e, st1) -> retried e = false ->
  retry factor more n target st = Some (Raise e, st1).
Proof. intros H He. destruct more; simpl; unfold try_except; now rewrite H, He. Qed.

Lemma retry_gives_up n st e st1 :
  target st = Some (Raise e, st1) -> retried e = true ->
  retry factor 0 n target st = Some (Raise e, st1).
Proof. intros H He. simpl; unfold try_except; now rewrite H, He. Qed.

Lemma retry_again more n st e st1 :
  target st = Some (Raise e, st1) -> retried e = true ->
  retry factor (S more) n target st
  = retry factor more (S n) target (log (Backoff (expo factor n)) st1).
Proof. intros H He. simpl; unfold try_except; now rewrite H, He. Qed.

End RetryFacts.

(* ===================================================================== *)
(** ** One call of the body of make_request                              *)
(* ===================================================================== *)

Section BodyFacts.

Variable network : list event -> request -> reply.
Variable login : M unit.
Variables (method : string) (url params data : value) (st : state).

Let q := outgoing method url data st.
Let body := make_request_body network login method url params data.

Hypothesis supported : method = "GET" \/ method = "POST".

Lemma body_sends :
  body st =
  bind (fun s => match network (trace st) q with
                 | Response resp => Some (Ret resp, log (Sent q) s)
                 | Fails e => Some (Raise e, log (Sent q) s)
                 end)
       (fun response =>
          (if (status_code response =? 401)%Z then login
           else if (status_code response =? 429)%Z then raise Server42xRateLimitError
           else if (status_code response >=? 500)%Z then raise Server5xxError
           else ret tt) ;;
          if negb (accepted (status_code response))
          then raise (RuntimeError (text response))
          else response_json response) st.
Proof.
  subst q body. destruct supported as [-> | ->]; reflexivity.
Qed.

Lemma body_fails e :
  network (trace st) q = Fails e ->
  body st = Some (Raise e, log (Sent q) st).
Proof. intros H. rewrite body_sends. unfold bind. now rewrite H. Qed.

Lemma body_unauthorized r :
  network (trace st) q = Response r -> status_code r = 401%Z ->
  body st =
  match login (log (Sent q) st) with
  | None => None
  | Some (Ret _, st2) => Some (Raise (RuntimeError (text r)), st2)
  | Some (Raise e, st2) => Some (Raise e, st2)
  end.
Proof.
  intros H Hs. rewrite body_sends. unfold bind. rewrite H, Hs. simpl.
  destruct (login _) as [[[[] | e] st2] |]; reflexivity.
Qed.

Lemma body_transient r :
  network (trace st) q = Response r -> transient (Response r) = true ->
  body st = Some (Raise (error_of (Response r)), log (Sent q) st).
Proof.
  intros H Ht. rewrite body_sends. unfold bind. rewrite H.
  unfold transient in Ht. unfold error_of.
  destruct (Z.eqb_spec (status_code r) 401) as [E | E].
  - rewrite E in Ht. discriminate.
  - destruct (status_code r =? 429)%Z; [reflexivity |].
    simpl in Ht. rewrite Ht. reflexivity.
Qed.

Lemma body_fatal r :
  network (trace st) q = Response r ->
  accepted (status_code r) = false ->
  status_code r <> 401%Z -> status_code r <> 429%Z -> (status_code r < 500)%Z ->
  body st = Some (Raise (RuntimeError (text r)), log (Sent q) st).
Proof.
  intros H Ha H1 H2 H3. rewrite body_sends. unfold bind. rewrite H.
  apply Z.eqb_neq in H1, H2. rewrite H1, H2.
  replace (status_code r >=? 500)%Z with false by (symmetry; rewrite Z.geb_leb; apply Z.leb_gt; lia).
  simpl. rewrite Ha. reflexivity.
Qed.

Lemma body_accepted r :
  network (trace st) q = Response r ->
  accepted (status_code r) = true ->
  body st = response_json r (log (Sent q) st).
Proof.
  intros H Ha. rewrite body_sends. unfold bind. rewrite H.
  apply accepted_iff in Ha.
  assert (E : ((status_code r =? 401) = false /\ (status_code r =? 429) = false
               /\ (status_code r >=? 500) = false)%Z).
  { rewrite Z.geb_leb, Z.leb_gt, !Z.eqb_neq. lia. }
  destruct E as (-> & -> & ->). simpl.
  replace (accepted (status_code r)) with true by (symmetry; apply accepted_iff; exact Ha).
  simpl. unfold response_json. destruct (json r); reflexivity.
Qed.

End BodyFacts.

Lemma body_unsupported network login method url params data st :
  method <> "GET" -> method <> "POST" ->
  make_request_body network login method url params data st
  = Some (Raise (Exception "Unsupported HTTP method"), st).
Proof.
  intros H1 H2. apply String.eqb_neq in H1, H2.
  unfold make_request_body, bind, read. now rewrite H1, H2.
Qed.

(* ===================================================================== *)
(** ** make_request under the decorator                                  *)
(* ===================================================================== *)

Lemma make_request_S network depth method url params data :
  make_request network (S depth) method url params data
  = on_exception 5 2
      (make_request_body network (login network depth) method url params data).
Proof. reflexivity. Qed.

Section DecoratedFacts.

Variable network : list event -> request -> reply.
Variables (depth : nat) (method : string) (url params data : value).

Let call := make_request network (S depth) method url params data.

Lemma make_request_unsupported st :
  method <> "GET" -> method <> "POST" ->
  call st = Some (Raise (Exception "Unsupported HTTP method"), st).
Proof.
  intros H1 H2. subst call. rewrite make_request_S. unfold on_exception.
  apply retry_escapes; [now apply body_unsupported | reflexivity].
Qed.

Hypothesis supported : method = "GET" \/ method = "POST".

Lemma make_request_escapes st e :
  network (trace st) (outgoing method url data st) = Fails e ->
  retried e = false ->
  call st = Some (Raise e, log (Sent (outgoing method url data st)) st).
Proof.
  intros H He. subst call. rewrite make_request_S. unfold on_exception.
  apply retry_escapes; [now apply body_fails | exact He].
Qed.

Lemma make_request_fatal st r :
  network (trace st) (outgoing method url data st) = Response r ->
  accepted (status_code r) = false ->
  status_code r <> 401%Z -> status_code r <> 429%Z -> (status_code r < 500)%Z ->
  call st = Some (Raise (RuntimeError (text r)),
                  log (Sent (outgoing method url data st)) st).
Proof.
  intros H Ha H1 H2 H3. subst call. rewrite make_request_S. unfold on_exception.
  apply retry_escapes; [now apply body_fatal | reflexivity].
Qed.

Lemma make_request_accepted st r :
  network (trace st) (outgoing method url data st) = Response r ->
  accepted (status_code r) = true ->
  call st = response_json r (log (Sent (outgoing method url data st)) st).
Proof.
  intros H Ha. subst call. rewrite make_request_S. unfold on_exception.
  pose proof (body_accepted network (login network depth) method url params data st
                            supported r H Ha) as Hb.
  unfold response_json in *. destruct (json r).
  - now apply retry_returns.
  - apply retry_escapes; [exact Hb | reflexivity].
Qed.

(** A 401 whose re-login returns: the body raises [RuntimeError], which
    the decorator does not retry. *)
Lemma make_request_unauthorized st r st2 :
  network (trace st) (outgoing method url data st) = Response r ->
  status_code r = 401%Z ->
  login network depth (log (Sent (outgoing method url data st)) st) = Some (Ret tt, st2) ->
  call st = Some (Raise (RuntimeError (text r)), st2).
Proof.
  intros H Hs Hl. subst call. rewrite make_request_S. unfold on_exception.
  apply retry_escapes; [| reflexivity].
  rewrite (body_unauthorized network (login network depth) method url params data st
                             supported r H Hs).
  now rewrite Hl.
Qed.

(** One try on a transient reply, in the state reached after the events
    [evs]: the same request goes out and a listed exception comes back. *)
Lemma try_transient st evs :
  transient (network (trace st ++ evs) (outgoing method url data st)) = true ->
  let q := outgoing method url data st in
  let e := error_of (network (trace st ++ evs)%list q) in
  make_request_body network (login network depth) method url params data (emit evs st)
  = Some (Raise e, emit (evs ++ [Sent q]) st)
  /\ retried e = true.
Proof.
  intros Ht q e. subst q e.
  destruct (network (trace st ++ evs)%list (outgoing method url data st)) as [r | e] eqn:E.
  - split.
    + rewrite (body_transient network _ method url params data (emit evs st) supported r).
      * now rewrite outgoing_emit, log_emit.
      * now rewrite outgoing_emit, trace_emit.
      * exact Ht.
    + simpl. destruct (status_code r =? 429)%Z; reflexivity.
  - split.
    + rewrite (body_fails network _ method url params data (emit evs st) supported e).
      * now rewrite outgoing_emit, log_emit.
      * now rewrite outgoing_emit, trace_emit.
    + exact Ht.
Qed.

(** When every reply to the request is transient, the decorator makes five
    tries, with sleeps bounded by 2, 4, 8 and 16 between them, and raises
    the last error. *)
Lemma make_request_exhausts st :
  let q := outgoing method url data st in
  (forall h, transient (network h q) = true) ->
  call st =
  Some (Raise (error_of (network (trace st ++ [Sent q; Backoff 2; Sent q; Backoff 4;
                                               Sent q; Backoff 8; Sent q; Backoff 16])%list q)),
        emit [Sent q; Backoff 2; Sent q; Backoff 4; Sent q; Backoff 8; Sent q;
              Backoff 16; Sent q] st).
Proof.
  intros q Hall. subst call. rewrite make_request_S. unfold on_exception. simpl Nat.sub.
  assert (E0 : emit [] st = st) by (destruct st; unfold emit; simpl; now rewrite app_nil_r).
  rewrite <- E0 at 1.
  destruct (try_transient st [] (Hall _)) as [B1 R1].
  rewrite (retry_again _ _ _ _ _ _ _ B1 R1), log_emit.
  destruct (try_transient st _ (Hall (trace st ++ [Sent q; Backoff (expo 2 0)])%list)) as [B2 R2].
  rewrite (retry_again _ _ _ _ _ _ _ B2 R2), log_emit.
  destruct (try_transient st _
              (Hall (trace st ++ [Sent q; Backoff (expo 2 0); Sent q; Backoff (expo 2 1)])%list))
    as [B3 R3].
  rewrite (retry_again _ _ _ _ _ _ _ B3 R3), log_emit.
  destruct (try_transient st _
              (Hall (trace st ++ [Sent q; Backoff (expo 2 0); Sent q; Backoff (expo 2 1);
                                  Sent q; Backoff (expo 2 2)])%list))
    as [B4 R4].
  rewrite (retry_again _ _ _ _ _ _ _ B4 R4), log_emit.
  destruct (try_transient st _
              (Hall (trace st ++ [Sent q; Backoff (expo 2 0); Sent q; Backoff (expo 2 1);
                                  Sent q; Backoff (expo 2 2); Sent q; Backoff (expo 2 3)])%list))
    as [B5 R5].
  rewrite (retry_gives_up _ _ _ _ _ _ B5 R5).
  reflexivity.
Qed.

End DecoratedFacts.

(* ===================================================================== *)
(** ** The retry policy                                                  *)
(* ===================================================================== *)

Lemma retried_iff (e : exn) :
  retried e = true
  <-> e = Server42xRateLimitError \/ e = Server5xxError \/ e = ConnectionError.
Proof.
  destruct e; simpl; split; intros H; auto;
    try discriminate; destruct H as [H | [H | H]]; discriminate.
Qed.

(** The policy of the decorator as the code states it: it retries the
    rate-limit error, the server error and the built-in [ConnectionError],
    and nothing else.  Any other exception of a try escapes with no sleep
    and no second try (so a 4xx status other than 401 and 429 is answered by
    one request and a [RuntimeError]); and when every try fails with a
    listed error, there are five tries in all, the sleeps between them are
    bounded by 2, 4, 8 and 16, and the last error is raised. *)
Theorem retry_wrapper_policy
        (network : list event -> request -> reply) (depth : nat)
        (method : string) (url params data : value) (st : state) :
  method = "GET" \/ method = "POST" ->
  let q := outgoing method url data st in
  let call := make_request network (S depth) method url params data in
  (forall e, retried e = true
             <-> e = Server42xRateLimitError \/ e = Server5xxError \/ e = ConnectionError)
  /\ (forall (A : Type) (target : M A) s e s1,
         target s = Some (Raise e, s1) -> retried e = false ->
         on_exception 5 2 target s = Some (Raise e, s1))
  /\ (forall e, network (trace st) q = Fails e -> retried e = false ->
                call st = Some (Raise e, log (Sent q) st))
  /\ (forall r, network (trace st) q = Response r ->
                (400 <= status_code r < 500)%Z ->
                status_code r <> 401%Z -> status_code r <> 429%Z ->
                call st = Some (Raise (RuntimeError (text r)), log (Sent q) st))
  /\ ((forall h, transient (network h q) = true) ->
      call st =
      Some (Raise (error_of (network (trace st ++ [Sent q; Backoff 2; Sent q; Backoff 4;
                                                   Sent q; Backoff 8; Sent q; Backoff 16])%list
                                     q)),
            emit [Sent q; Backoff 2; Sent q; Backoff 4; Sent q; Backoff 8; Sent q;
                  Backoff 16; Sent q] st)).
Proof.
  intros Hm q call. repeat split.
  - apply retried_iff.
  - apply retried_iff.
  - intros A target s e s1 H He. now apply retry_escapes.
  - intros e H He. now apply make_request_escapes.
  - intros r H Hs H1 H2. apply make_request_fatal; auto; try lia.
    destruct (accepted (status_code r)) eqn:E; [| reflexivity].
    apply accepted_iff in E. lia.
  - intros Hall. now apply make_request_exhausts.
Qed.

Lemma retry_wrapper_policy_witness :
  let down := always (status 503 "unavailable") in
  let missing := always (status 404 "not found") in
  let q := Scenario.get_users in
  (forall h, transient (down h q) = true)
  /\ make_request down 1 "GET" Scenario.users_url VNone VNone Scenario.st0
     = Some (Raise Server5xxError,
             emit [Sent q; Backoff 2; Sent q; Backoff 4; Sent q; Backoff 8; Sent q;
                   Backoff 16; Sent q] Scenario.st0)
  /\ make_request missing 1 "GET" Scenario.users_url VNone VNone Scenario.st0
     = Some (Raise (RuntimeError "not found"), log (Sent q) Scenario.st0).
Proof.
  intros down missing q. split; [intros h; reflexivity | split].
  - destruct (retry_wrapper_policy down 0 "GET" Scenario.users_url VNone VNone Scenario.st0
                                   (or_introl eq_refl)) as (_ & _ & _ & _ & H).
    apply H. intros h. reflexivity.
  - destruct (retry_wrapper_policy missing 0 "GET" Scenario.users_url VNone VNone Scenario.st0
                                   (or_introl eq_refl)) as (_ & _ & _ & H & _).
    apply (H (mkResponse 404 "not found" None)); [reflexivity | simpl; lia | discriminate | discriminate].
Defined.

(** C4, at a connection failure as [requests] reports it.  The decorator
    lists the built-in [ConnectionError], which it would retry; the session
    raises [requests.exceptions.ConnectionError], which is none: the
    exception leaves [make_request] after the first try, with no sleep and
    no second request, although the network keeps failing the same way. *)
Theorem requests_connection_error_is_not_retried :
  let failure := LibraryError "requests.exceptions.ConnectionError" in
  let network := always (Fails failure) in
  retried ConnectionError = true
  /\ retried failure = false
  /\ make_request network 1 "GET" Scenario.users_url VNone VNone Scenario.st0
     = Some (Raise failure, log (Sent Scenario.get_users) Scenario.st0)
  /\ trace (log (Sent Scenario.get_users) Scenario.st0) = [Sent Scenario.get_users].
Proof. repeat split. Qed.

(** Two transient failures and then a page: the third try returns it. *)
Example retry_then_success :
  make_request (scripted [status 503 "unavailable"; status 429 "slow down"]
                         (ok (VDict Scenario.P2)))
               1 "GET" Scenario.users_url VNone VNone Scenario.st0
  = Some (Ret (VDict Scenario.P2),
          emit [Sent Scenario.get_users; Backoff 2; Sent Scenario.get_users; Backoff 4;
                Sent Scenario.get_users] Scenario.st0).
Proof. reflexivity. Qed.

(** C7: [make_request] fails at once in the two unclassified cases.  A
    method other than GET and POST raises with the state untouched: no
    request is sent and nothing is slept.  A response whose status is not
    200, 201 or 202 and is not 401, 429 or 500 and above raises a
    [RuntimeError] that carries the response text, after that one request
    and without any retry. *)
Theorem unclassified_failures_are_fatal
        (network : list event -> request -> reply) (depth : nat)
        (method : string) (url params data : value) (st : state) :
  (method <> "GET" -> method <> "POST" ->
   make_request network (S depth) method url params data st
   = Some (Raise (Exception "Unsupported HTTP method"), st))
  /\ (method = "GET" \/ method = "POST" ->
      forall r,
        network (trace st) (outgoing method url data st) = Response r ->
        accepted (status_code r) = false ->
        status_code r <> 401%Z -> status_code r <> 429%Z -> (status_code r < 500)%Z ->
        make_request network (S depth) method url params data st
        = Some (Raise (RuntimeError (text r)),
                log (Sent (outgoing method url data st)) st)).
Proof.
  split.
  - intros H1 H2. now apply make_request_unsupported.
  - intros Hm r H Ha H1 H2 H3. now apply make_request_fatal.
Qed.

Lemma unclassified_failures_are_fatal_witness :
  let teapot := always (status 418 "I'm a teapot") in
  make_request teapot 1 "DELETE" Scenario.users_url VNone VNone Scenario.st0
  = Some (Raise (Exception "Unsupported HTTP method"), Scenario.st0)
  /\ make_request teapot 1 "GET" Scenario.users_url VNone VNone Scenario.st0
     = Some (Raise (RuntimeError "I'm a teapot"), log (Sent Scenario.get_users) Scenario.st0).
Proof.
  intros teapot. split.
  - apply (unclassified_failures_are_fatal teapot 0 "DELETE"); discriminate.
  - apply (proj2 (unclassified_failures_are_fatal teapot 0 "GET" Scenario.users_url
                    VNone VNone Scenario.st0) (or_introl eq_refl)
                 (mkResponse 418 "I'm a teapot" None));
      [reflexivity | reflexivity | discriminate | discriminate | reflexivity].
Defined.

(* ===================================================================== *)
(** ** login                                                             *)
(* ===================================================================== *)

(** [login] in terms of its token request: whatever the request does, the
    timer is started last. *)
Lemma login_unfold network depth st :
  login network depth st =
  match token_call network depth st with
  | None => None
  | Some (Raise e, st1) => Some (Raise e, armed st1)
  | Some (Ret (VDict d), st1) =>
      Some (Ret tt, armed (set_access_token (dict_get d "access_token" VNone) st1))
  | Some (Ret _, st1) => Some (Raise AttributeError, armed st1)
  end.
Proof.
  unfold login, login_body, token_call, bind, read, modify, try_finally. simpl.
  fold (with_credentials st).
  destruct (make_request _ _ _ _ _ _ _) as [[[v | e] st1] |]; try reflexivity.
  destruct v; reflexivity.
Qed.

Lemma armed_timer st :
  login_timer (armed st) = Some TOKEN_EXPIRATION_PERIOD
  /\ trace (armed st) = (trace st ++ [TimerStarted TOKEN_EXPIRATION_PERIOD])%list.
Proof. split; reflexivity. Qed.

Section Termination.

Variable network : list event -> request -> reply.
Hypothesis no401 : never_unauthorized network.

Lemma body_total login method url params data st :
  make_request_body network login method url params data st <> None.
Proof.
  unfold make_request_body, bind, read, session_get, session_post, send, raise.
  destruct (method =? "GET")%string; [| destruct (method =? "POST")%string];
    try discriminate;
    match goal with
    | |- context [network ?h ?q] => destruct (network h q) as [r | e] eqn:E
    end; try discriminate;
    (apply no401 in E; apply Z.eqb_neq in E; rewrite E;
     destruct (status_code r =? 429)%Z; [discriminate |];
     destruct (status_code r >=? 500)%Z; [discriminate |];
     unfold ret, response_json;
     destruct (negb _); [discriminate |];
     destruct (json r); discriminate).
Qed.

Lemma retry_total {A} factor (target : M A) :
  (forall st, target st <> None) ->
  forall more n st, retry factor more n target st <> None.
Proof.
  intros Ht more. induction more as [| more IH]; intros n st; simpl; unfold try_except;
    specialize (Ht st); destruct (target st) as [[[x | e] st1] |];
    try discriminate; try contradiction;
    destruct (retried e); try discriminate.
  unfold bind, sleep, modify. apply IH.
Qed.

Lemma make_request_total depth method url params data st :
  make_request network (S depth) method url params data st <> None.
Proof.
  rewrite make_request_S. unfold on_exception.
  apply retry_total. intros s. apply body_total.
Qed.

Lemma login_total depth st : login network (S depth) st <> None.
Proof.
  rewrite login_unfold. unfold token_call.
  pose proof (make_request_total depth "POST"
                (VStr (TOKEN_URL (dict_get (config st) "tenant_id" VNone)))
                VNone (token_request_body st) (with_credentials st)) as H.
  destruct (make_request _ _ _ _ _ _ _) as [[[v | e] st1] |];
    try discriminate; try contradiction.
  destruct v; discriminate.
Qed.

End Termination.

(** C6, as amended: every call of [login] that ends, normally or with an
    exception, has stored and started the timer for the same fixed interval
    as its last action; an exception of the token request (a failing
    transport, an error status, a body that does not decode) propagates
    unchanged to the caller of [login], and so does the [AttributeError] of
    a decoded body that is not an object; but an accepted response whose
    object has no ['access_token'] is no failure: [None] becomes the token
    and [login] returns.  [login] ends whenever its token request does, and
    always on a network that never answers 401. *)
Theorem login_rearms_and_propagates
        (network : list event -> request -> reply) (depth : nat) (st : state) :
  (forall r st', login network depth st = Some (r, st') ->
                 login_timer st' = Some TOKEN_EXPIRATION_PERIOD
                 /\ exists h, trace st' = (h ++ [TimerStarted TOKEN_EXPIRATION_PERIOD])%list)
  /\ (forall e st1, token_call network depth st = Some (Raise e, st1) ->
                    login network depth st = Some (Raise e, armed st1))
  /\ (forall v st1, token_call network depth st = Some (Ret v, st1) ->
                    login network depth st =
                    match v with
                    | VDict d =>
                        Some (Ret tt,
                              armed (set_access_token (dict_get d "access_token" VNone) st1))
                    | _ => Some (Raise AttributeError, armed st1)
                    end)
  /\ (never_unauthorized network ->
      exists r st', login network (S depth) st = Some (r, armed st')).
Proof.
  repeat split.
  - rewrite login_unfold in H.
    destruct (token_call network depth st) as [[[v | e] st1] |]; try discriminate;
      [destruct v |]; injection H as _ <-; reflexivity.
  - rewrite login_unfold in H.
    destruct (token_call network depth st) as [[[v | e] st1] |]; try discriminate;
      [destruct v |]; injection H as _ <-; eexists; reflexivity.
  - intros e st1 H. rewrite login_unfold, H. reflexivity.
  - intros v st1 H. rewrite login_unfold, H. destruct v; reflexivity.
  - intros Hn. pose proof (login_total network Hn depth st) as Ht.
    rewrite login_unfold in *.
    destruct (token_call network (S depth) st) as [[[v | e] st1] |];
      try contradiction; [destruct v |]; eauto.
Qed.

Lemma login_rearms_and_propagates_witness :
  let rejecting := always (status 400 "invalid_client") in
  let unreachable := always (Fails (LibraryError "requests.exceptions.ConnectionError")) in
  let rejected := log (Sent Scenario.token_request) (with_credentials Scenario.st0) in
  token_call rejecting 1 Scenario.st0 = Some (Raise (RuntimeError "invalid_client"), rejected)
  /\ login rejecting 1 Scenario.st0
     = Some (Raise (RuntimeError "invalid_client"), armed rejected)
  /\ login unreachable 1 Scenario.st0
     = Some (Raise (LibraryError "requests.exceptions.ConnectionError"), armed rejected)
  /\ never_unauthorized rejecting
  /\ exists r st', login rejecting 1 Scenario.st0 = Some (r, armed st').
Proof.
  intros rejecting unreachable rejected.
  assert (Hn : never_unauthorized rejecting).
  { intros h q r H. injection H as <-. discriminate. }
  split; [| split; [| split; [| split]]].
  - reflexivity.
  - apply (proj1 (proj2 (login_rearms_and_propagates rejecting 1 Scenario.st0))).
    reflexivity.
  - apply (proj1 (proj2 (login_rearms_and_propagates unreachable 1 Scenario.st0))).
    reflexivity.
  - exact Hn.
  - apply (proj2 (proj2 (proj2 (login_rearms_and_propagates rejecting 0 Scenario.st0)))).
    exact Hn.
Defined.

(** Against C6 as first stated: the token endpoint answers 200 with an
    object that has no ['access_token']: [login] returns normally, nothing is raised, and the
    token of the client is [None] from then on. *)
Lemma login_swallows_missing_token :
  let network := always (ok Scenario.no_token) in
  let st' := armed (set_access_token VNone
                      (log (Sent Scenario.token_request) (with_credentials Scenario.st0))) in
  login network 1 Scenario.st0 = Some (Ret tt, st')
  /\ access_token st' = VNone
  /\ ~ (exists e s, login network 1 Scenario.st0 = Some (Raise e, s)).
Proof.
  intros network st'. repeat split.
  intros (e & s & H). discriminate H.
Qed.

(* ===================================================================== *)
(** ** The Authorization header and the 401 path                         *)
(* ===================================================================== *)

(** A GET carries the bearer token the client holds at that moment. *)
Lemma get_has_authorization url data st :
  req_method (outgoing "GET" url data st) = "GET"
  /\ lookup "Authorization" (req_headers (outgoing "GET" url data st))
     = Some (VStr ("Bearer " ++ str (access_token st))).
Proof.
  split; [reflexivity |]. unfold outgoing, headers_of. simpl.
  destruct (truthy _); reflexivity.
Qed.

(** A POST is handed to the session without the headers. *)
Lemma post_has_no_headers url data st :
  outgoing "POST" url data st = mkRequest "POST" url [] data
  /\ lookup "Authorization" (req_headers (outgoing "POST" url data st)) = None.
Proof. split; reflexivity. Qed.

(** After a [login] that returned, a GET carries the token that the token
    response held. *)
Lemma get_after_login network depth st d st1 url data :
  token_call network depth st = Some (Ret (VDict d), st1) ->
  exists st2,
    login network depth st = Some (Ret tt, st2)
    /\ access_token st2 = dict_get d "access_token" VNone
    /\ lookup "Authorization" (req_headers (outgoing "GET" url data st2))
       = Some (VStr ("Bearer " ++ str (dict_get d "access_token" VNone))).
Proof.
  intros H. eexists. split; [rewrite login_unfold, H; reflexivity |].
  split; [reflexivity |]. apply get_has_authorization.
Qed.

(** C2, at the token request of a client that holds the token [T1]: the
    POST that [make_request] hands to the session has no headers at all, so
    no Authorization header, although the same client puts [Bearer T1] on
    its GET. *)
Theorem post_request_has_no_authorization :
  let network := always (ok Scenario.token_T2) in
  let url := VStr (TOKEN_URL (VStr "tenant")) in
  let data := token_request_body Scenario.st0 in
  access_token Scenario.st0 = VStr "T1"
  /\ make_request network 1 "POST" url VNone data Scenario.st0
     = Some (Ret Scenario.token_T2, log (Sent (mkRequest "POST" url [] data)) Scenario.st0)
  /\ lookup "Authorization" (req_headers (mkRequest "POST" url [] data)) = None
  /\ lookup "Authorization" (req_headers Scenario.get_users) = Some (VStr "Bearer T1").
Proof. repeat split. Qed.

(** C1, at a GET answered by 401 while the token endpoint then issues
    [T2]: one re-login takes place and the client holds [T2], but what
    [make_request] raises is the [RuntimeError] of the final status check,
    which the decorator does not retry: two requests were sent, the GET
    with [T1] and the token POST, and the GET is not sent again. *)
Theorem unauthorized_is_not_replayed :
  let network := scripted [status 401 "unauthorized"; ok Scenario.token_T2]
                          (ok (VDict Scenario.P2)) in
  exists st',
    make_request network 2 "GET" Scenario.users_url VNone VNone Scenario.st0
    = Some (Raise (RuntimeError "unauthorized"), st')
    /\ retried (RuntimeError "unauthorized") = false
    /\ access_token st' = VStr "T2"
    /\ trace st' = [Sent Scenario.get_users; Sent Scenario.token_request;
                    TimerStarted TOKEN_EXPIRATION_PERIOD]
    /\ lookup "Authorization" (req_headers Scenario.get_users) = Some (VStr "Bearer T1").
Proof. eexists. repeat split. Qed.

(* ===================================================================== *)
(** ** build_url                                                         *)
(* ===================================================================== *)

Lemma append_assoc (s1 s2 s3 : string) : (s1 ++ s2) ++ s3 = s1 ++ s2 ++ s3.
Proof. induction s1 as [| c s1 IH]; simpl; [reflexivity | now rewrite IH]. Qed.

Lemma append_empty_r (s : string) : s ++ EmptyString = s.
Proof. induction s as [| c s IH]; simpl; [reflexivity | now rewrite IH]. Qed.

Lemma nonempty_path (version path : string) :
  nonempty (version ++ "/" ++ path) = true.
Proof. destruct version; reflexivity. Qed.

Lemma urlparse_graph :
  urlparse BASE_GRAPH_URL
  = Ret (mkParseResult "https" "graph.microsoft.com" EmptyString EmptyString
                       EmptyString EmptyString).
Proof. reflexivity. Qed.

(** The URL built on the Graph base: host, then the path (with a slash
    before it unless it starts with one), then the encoded arguments when
    there are any. *)
Lemma build_url_graph (version path : string) (args : dict) :
  build_url BASE_GRAPH_URL version path args
  = Ret ("https://graph.microsoft.com"
         ++ (if (upto 1 (version ++ "/" ++ path) =? "/")%string then EmptyString else "/")
         ++ (version ++ "/" ++ path)
         ++ (if nonempty (urlencode args) then "?" ++ urlencode args else EmptyString)).
Proof.
  unfold build_url. rewrite urlparse_graph.
  unfold urlunparse, urlunsplit.
  cbn [scheme netloc Urllib.path params query fragment].
  change (nonempty EmptyString) with false.
  change (nonempty "graph.microsoft.com") with true.
  change (nonempty "https") with true.
  cbn [orb]. rewrite nonempty_path. cbn [andb].
  f_equal.
  destruct (upto 1 (version ++ "/" ++ path) =? "/")%string;
    destruct (nonempty (urlencode args)); cbn [negb];
    simpl; rewrite ?append_assoc; simpl; rewrite ?append_empty_r; reflexivity.
Qed.

Lemma build_url_graph_truthy version path args url :
  build_url BASE_GRAPH_URL version path args = Ret url ->
  truthy (VStr url) = true.
Proof. rewrite build_url_graph. intros H. injection H as <-. reflexivity. Qed.

Lemma urlencode_cons (k : string) (v : value) (rest : dict) :
  urlencode ((k, v) :: rest)
  = quote_plus k ++ "=" ++ quote_plus (str v)
    ++ match rest with
       | [] => EmptyString
       | _ :: _ => "&" ++ urlencode rest
       end.
Proof.
  unfold urlencode. destruct rest as [| [k' v'] rest]; simpl.
  - now rewrite append_empty_r.
  - now rewrite !append_assoc.
Qed.

(** C9: [build_url] is a function of its four arguments alone (it is no
    computation of the client, and lifting it into one leaves the state as
    it was); on the Graph base with version [v1.0], path [users] and
    [{"$top": 10}] it gives exactly
    [https://graph.microsoft.com/v1.0/users?%24top=10]; on that base the
    result is always host, path and encoded arguments; and the arguments
    are encoded item by item in the order of the mapping. *)
Theorem build_url_users_top :
  build_url "https://graph.microsoft.com" "v1.0" "users" [("$top", VInt 10)]
  = Ret "https://graph.microsoft.com/v1.0/users?%24top=10"
  /\ (forall baseurl version path args st,
         lift (build_url baseurl version path args) st
         = Some (build_url baseurl version path args, st))
  /\ (forall version path args,
         build_url BASE_GRAPH_URL version path args
         = Ret ("https://graph.microsoft.com"
                ++ (if (upto 1 (version ++ "/" ++ path) =? "/")%string
                    then EmptyString else "/")
                ++ (version ++ "/" ++ path)
                ++ (if nonempty (urlencode args) then "?" ++ urlencode args
                    else EmptyString)))
  /\ (forall k v rest,
         urlencode ((k, v) :: rest)
         = quote_plus k ++ "=" ++ quote_plus (str v)
           ++ match rest with
              | [] => EmptyString
              | _ :: _ => "&" ++ urlencode rest
              end)
  /\ build_url BASE_GRAPH_URL "v1.0" "users" [("$top", VInt 10); ("$filter", VStr "a b")]
     = Ret "https://graph.microsoft.com/v1.0/users?%24top=10&%24filter=a+b"
  /\ build_url BASE_GRAPH_URL "v1.0" "users" [("$filter", VStr "a b"); ("$top", VInt 10)]
     = Ret "https://graph.microsoft.com/v1.0/users?%24filter=a+b&%24top=10".
Proof.
  split; [reflexivity |]. split; [reflexivity |].
  split; [apply build_url_graph |]. split; [apply urlencode_cons |].
  split; reflexivity.
Qed.

(** Against C10 as first stated: two bases with the same scheme and host,
    one with a fragment: the
    fragment of the base stays in the result, so the results differ. *)
Lemma base_fragment_is_kept :
  let b1 := "https://graph.microsoft.com#a" in
  let b2 := "https://graph.microsoft.com" in
  let args := [("$top", VInt 10)] in
  (exists p1 p2, urlparse b1 = Ret p1 /\ urlparse b2 = Ret p2
                 /\ scheme p1 = scheme p2 /\ netloc p1 = netloc p2)
  /\ build_url b1 "v1.0" "users" args
     = Ret "https://graph.microsoft.com/v1.0/users?%24top=10#a"
  /\ build_url b2 "v1.0" "users" args
     = Ret "https://graph.microsoft.com/v1.0/users?%24top=10"
  /\ ~ (forall c1 c2 p1 p2 version path a,
           urlparse c1 = Ret p1 -> urlparse c2 = Ret p2 ->
           scheme p1 = scheme p2 -> netloc p1 = netloc p2 ->
           build_url c1 version path a = build_url c2 version path a).
Proof.
  intros b1 b2 args. split; [| split; [| split]].
  - do 2 eexists. repeat split.
  - reflexivity.
  - reflexivity.
  - intros H.
    specialize (H b1 b2 _ _ "v1.0" "users" args eq_refl eq_refl eq_refl eq_refl).
    discriminate H.
Qed.

(** C10, as amended: the result of [build_url] depends on the base only
    through its scheme, its network location, the parameters of its last
    path segment and its fragment.  Two bases that agree on these four give
    the same result for the same version, path and arguments; the path and
    the query of the base are dropped and replaced. *)
Theorem build_url_replaces_path_and_query
        (b1 b2 : string) (p1 p2 : ParseResult) (version path : string) (args : dict) :
  urlparse b1 = Ret p1 -> urlparse b2 = Ret p2 ->
  scheme p1 = scheme p2 -> netloc p1 = netloc p2 ->
  params p1 = params p2 -> fragment p1 = fragment p2 ->
  build_url b1 version path args = build_url b2 version path args
  /\ build_url b1 version path args
     = Ret (urlunparse (mkParseResult (scheme p1) (netloc p1) (version ++ "/" ++ path)
                                      (params p1) (urlencode args) (fragment p1))).
Proof.
  intros H1 H2 Hs Hn Hp Hf. unfold build_url. rewrite H1, H2, Hs, Hn, Hp, Hf.
  split; reflexivity.
Qed.

Lemma build_url_replaces_path_and_query_witness :
  let b1 := "https://graph.microsoft.com/beta/me?$top=1" in
  let b2 := "https://graph.microsoft.com" in
  urlparse b1 = Ret (mkParseResult "https" "graph.microsoft.com" "/beta/me" EmptyString
                                   "$top=1" EmptyString)
  /\ build_url b1 "v1.0" "users" [("$top", VInt 10)]
     = build_url b2 "v1.0" "users" [("$top", VInt 10)]
  /\ build_url b1 "v1.0" "users" [("$top", VInt 10)]
     = Ret "https://graph.microsoft.com/v1.0/users?%24top=10".
Proof.
  intros b1 b2. split; [reflexivity |].
  apply (build_url_replaces_path_and_query
           b1 b2
           (mkParseResult "https" "graph.microsoft.com" "/beta/me" EmptyString
                          "$top=1" EmptyString)
           (mkParseResult "https" "graph.microsoft.com" EmptyString EmptyString
                          EmptyString EmptyString));
    reflexivity.
Defined.

(* ===================================================================== *)
(** ** The pagination loop                                               *)
(* ===================================================================== *)

Section Pagination.

Variable request : value -> M value.

Lemma fetch_pages_done n url acc st :
  truthy url = false ->
  fetch_pages request n url acc st = Some (Ret acc, st).
Proof. intros H. destruct n; simpl; now rewrite H. Qed.

Lemma fetch_pages_empty n url acc st body st1 :
  truthy url = true ->
  request url st = Some (Ret body, st1) ->
  truthy body = false ->
  fetch_pages request (S n) url acc st = Some (Ret acc, st1).
Proof.
  intros Hu Hr Hb. cbn [fetch_pages]. rewrite Hu. unfold bind. rewrite Hr, Hb.
  now apply fetch_pages_done.
Qed.

Lemma truthy_dict d : d <> [] -> truthy (VDict d) = true.
Proof. destruct d; [congruence | reflexivity]. Qed.

Lemma fetch_pages_page n url acc st d l st1 :
  truthy url = true ->
  request url st = Some (Ret (VDict d), st1) ->
  d <> [] ->
  lookup "value" d = Some (VList l) ->
  fetch_pages request (S n) url acc st
  = fetch_pages request n (dict_get d "@odata.nextLink" VNone) (acc ++ l)%list st1.
Proof.
  intros Hu Hr Hd Hv. cbn [fetch_pages]. rewrite Hu. unfold bind at 1. rewrite Hr.
  rewrite (truthy_dict d Hd). unfold bind, lift, Py.get.
  replace (dict_get d "value" VNone) with (VList l)
    by (unfold dict_get; now rewrite Hv).
  reflexivity.
Qed.

(** A non-empty object without ['value']: [get] gives [None] and
    [extend] raises. *)
Lemma fetch_pages_no_value n url acc st d st1 :
  truthy url = true ->
  request url st = Some (Ret (VDict d), st1) ->
  d <> [] ->
  lookup "value" d = None ->
  fetch_pages request (S n) url acc st = Some (Raise TypeError, st1).
Proof.
  intros Hu Hr Hd Hv. cbn [fetch_pages]. rewrite Hu. unfold bind at 1. rewrite Hr.
  rewrite (truthy_dict d Hd). unfold bind, lift, Py.get.
  replace (dict_get d "value" VNone) with VNone
    by (unfold dict_get; now rewrite Hv).
  reflexivity.
Qed.

(** A page without ['@odata.nextLink'] is the last one. *)
Lemma fetch_pages_last n url acc st d l st1 :
  truthy url = true ->
  request url st = Some (Ret (VDict d), st1) ->
  d <> [] ->
  lookup "value" d = Some (VList l) ->
  lookup "@odata.nextLink" d = None ->
  fetch_pages request (S n) url acc st = Some (Ret (acc ++ l)%list, st1).
Proof.
  intros Hu Hr Hd Hv Hn. rewrite (fetch_pages_page n url acc st d l st1); auto.
  apply fetch_pages_done. unfold dict_get. now rewrite Hn.
Qed.

(** The loop returns the pages' records in the order of the requests. *)
Lemma fetch_pages_concat url st ls st2 :
  pages_from request url st ls st2 ->
  forall n acc, (List.length ls <= n)%nat ->
  fetch_pages request n url acc st = Some (Ret (acc ++ concat ls)%list, st2).
Proof.
  induction 1 as [url st Hu | url st d l st1 ls st2 Hu Hr Hd Hv Hrest IH];
    intros n acc Hlen.
  - simpl. rewrite app_nil_r. now apply fetch_pages_done.
  - destruct n as [| n]; [simpl in Hlen; lia |].
    rewrite (fetch_pages_page n url acc st d l st1); auto.
    rewrite IH by (simpl in Hlen; lia).
    simpl. now rewrite app_assoc.
Qed.

End Pagination.

(** C3: when the first request of [get_all_resources] is answered by a
    page [P1] with ['@odata.nextLink'] = [U2] and ['value'] = [[a, b]], and
    the request at [U2] by a page [P2] with no ['@odata.nextLink'] and
    ['value'] = [[c]], the call returns [[a, b, c]]: the pages in the order
    they were fetched, each in the order the server gave. *)
Theorem two_pages_in_order
        (network : list event -> request -> reply) (depth pages : nat)
        (version endpoint : string) (top orderby filter_param : value)
        (url1 U2 : string) (P1 P2 : dict) (a b c : value) (st st1 st2 : state) :
  build_url BASE_GRAPH_URL version endpoint (query_args top orderby filter_param)
  = Ret url1 ->
  make_request network depth "GET" (VStr url1) VNone VNone st
  = Some (Ret (VDict P1), st1) ->
  lookup "@odata.nextLink" P1 = Some (VStr U2) ->
  U2 <> EmptyString ->
  lookup "value" P1 = Some (VList [a; b]) ->
  make_request network depth "GET" (VStr U2) VNone VNone st1
  = Some (Ret (VDict P2), st2) ->
  lookup "@odata.nextLink" P2 = None ->
  lookup "value" P2 = Some (VList [c]) ->
  get_all_resources network depth (S (S pages)) version endpoint
                    top orderby filter_param st
  = Some (Ret [a; b; c], st2).
Proof.
  intros Hurl H1 Hn1 HU Hv1 H2 Hn2 Hv2.
  unfold get_all_resources, bind, lift. rewrite Hurl.
  set (request := fun url => make_request network depth "GET" url VNone VNone).
  assert (Hp : pages_from request (VStr url1) st [[a; b]; [c]] st2).
  { apply pages_next with (d := P1) (st1 := st1).
    - now apply build_url_graph_truthy in Hurl.
    - exact H1.
    - intros ->. discriminate.
    - exact Hv1.
    - unfold dict_get. rewrite Hn1.
      apply pages_next with (d := P2) (st1 := st2).
      + simpl. apply negb_true_iff. now apply String.eqb_neq.
      + exact H2.
      + intros ->. discriminate.
      + exact Hv2.
      + apply pages_end. unfold dict_get. now rewrite Hn2. }
  rewrite (fetch_pages_concat request _ _ _ _ Hp (S (S pages)) []) by (simpl; lia).
  reflexivity.
Qed.

Lemma two_pages_in_order_witness :
  let network := scripted [ok (VDict Scenario.P1); ok (VDict Scenario.P2)]
                          (status 500 "no more pages") in
  let second := mkRequest "GET" (VStr Scenario.U2) (headers_of Scenario.st0) VNone in
  build_url BASE_GRAPH_URL "v1.0" "users" (query_args VNone VNone VNone)
  = Ret "https://graph.microsoft.com/v1.0/users"
  /\ get_all_resources network 1 2 "v1.0" "users" VNone VNone VNone Scenario.st0
     = Some (Ret [Scenario.a; Scenario.b; Scenario.c],
             emit [Sent Scenario.get_users; Sent second] Scenario.st0).
Proof.
  intros network second. split; [reflexivity |].
  apply (two_pages_in_order network 1 0 "v1.0" "users" VNone VNone VNone
           "https://graph.microsoft.com/v1.0/users" Scenario.U2
           Scenario.P1 Scenario.P2 Scenario.a Scenario.b Scenario.c
           Scenario.st0 (log (Sent Scenario.get_users) Scenario.st0));
    try reflexivity.
  discriminate.
Defined.

(** C8: in any state of the loop, with any records accumulated so far, a
    request that returns an empty (falsy) body ends the loop: the result is
    exactly the accumulated records, and no further request is made. *)
Theorem empty_page_stops
        (network : list event -> request -> reply) (depth pages : nat)
        (next_url body : value) (response : list value) (st st1 : state) :
  truthy next_url = true ->
  make_request network depth "GET" next_url VNone VNone st = Some (Ret body, st1) ->
  truthy body = false ->
  fetch_pages (fun url => make_request network depth "GET" url VNone VNone)
              (S pages) next_url response st
  = Some (Ret response, st1).
Proof. intros Hu Hr Hb. now apply fetch_pages_empty with (body := body). Qed.

Lemma empty_page_stops_witness :
  let network := scripted [ok (VDict [])] (ok (VDict Scenario.P2)) in
  let second := mkRequest "GET" (VStr Scenario.U2) (headers_of Scenario.st0) VNone in
  make_request network 1 "GET" (VStr Scenario.U2) VNone VNone Scenario.st0
  = Some (Ret (VDict []), log (Sent second) Scenario.st0)
  /\ fetch_pages (fun url => make_request network 1 "GET" url VNone VNone)
                 3 (VStr Scenario.U2) [Scenario.a; Scenario.b] Scenario.st0
     = Some (Ret [Scenario.a; Scenario.b], log (Sent second) Scenario.st0).
Proof.
  intros network second. split; [reflexivity |].
  apply (empty_page_stops network 1 2 (VStr Scenario.U2) (VDict [])); reflexivity.
Defined.

(** Pagination after an empty page at the level of the whole call: the
    first page is kept, the empty second page ends the loop. *)
Example empty_second_page :
  get_all_resources (scripted [ok (VDict Scenario.P1); ok (VDict [])]
                              (ok (VDict Scenario.P2)))
                    1 5 "v1.0" "users" VNone VNone VNone Scenario.st0
  = Some (Ret [Scenario.a; Scenario.b],
          emit [Sent Scenario.get_users;
                Sent (mkRequest "GET" (VStr Scenario.U2) (headers_of Scenario.st0) VNone)]
               Scenario.st0).
Proof. reflexivity. Qed.

(** C5, at a first page that is a non-empty object without ['value']:
    [body.get('value')] is [None], [response.extend(None)] raises a
    [TypeError], and [get_all_resources] ends with that exception instead of
    going on with no records from the page. *)
Theorem page_without_value_raises :
  let network := always (ok (VDict Scenario.P_novalue)) in
  truthy (VDict Scenario.P_novalue) = true
  /\ lookup "value" Scenario.P_novalue = None
  /\ Py.get (VDict Scenario.P_novalue) "value" VNone = Ret VNone
  /\ extend [] VNone = Raise TypeError
  /\ get_all_resources network 1 5 "v1.0" "users" VNone VNone VNone Scenario.st0
     = Some (Raise TypeError, log (Sent Scenario.get_users) Scenario.st0).
Proof. repeat split. Qed.

(* ===================================================================== *)
(** ** An accepted response                                              *)
(* ===================================================================== *)

(** X1: a response with status 200, 201 or 202 ends [make_request] after
    that one request, with no sleep: with the decoded body when the body
    decodes, with the [ValueError] of [json()] when it does not (which the
    decorator does not retry). *)
Theorem accepted_response_is_decoded
        (network : list event -> request -> reply) (depth : nat)
        (method : string) (url params data : value) (st : state) (r : response) :
  method = "GET" \/ method = "POST" ->
  network (trace st) (outgoing method url data st) = Response r ->
  accepted (status_code r) = true ->
  make_request network (S depth) method url params data st
  = Some (match json r with
          | Some body => Ret body
          | None => Raise ValueError
          end,
          log (Sent (outgoing method url data st)) st).
Proof.
  intros Hm H Ha.
  rewrite (make_request_accepted network depth method url params data Hm st r H Ha).
  unfold response_json. destruct (json r); reflexivity.
Qed.

Lemma accepted_response_is_decoded_witness :
  let garbled := always (Response (mkResponse 200 "<html>" None)) in
  make_request (always (ok (VDict Scenario.P2))) 1 "GET" Scenario.users_url VNone VNone
               Scenario.st0
  = Some (Ret (VDict Scenario.P2), log (Sent Scenario.get_users) Scenario.st0)
  /\ make_request garbled 1 "GET" Scenario.users_url VNone VNone Scenario.st0
     = Some (Raise ValueError, log (Sent Scenario.get_users) Scenario.st0).
Proof.
  intros garbled. split.
  - apply (accepted_response_is_decoded (always (ok (VDict Scenario.P2))) 0 "GET"
             Scenario.users_url VNone VNone Scenario.st0
             (mkResponse 200 "ok" (Some (VDict Scenario.P2))));
      [left; reflexivity | reflexivity | reflexivity].
  - apply (accepted_response_is_decoded garbled 0 "GET"
             Scenario.users_url VNone VNone Scenario.st0
             (mkResponse 200 "<html>" None));
      [left; reflexivity | reflexivity | reflexivity].
Defined.

(* ===================================================================== *)
(** ** The shape of a call when no 401 comes back                        *)
(* ===================================================================== *)

Section Quiet.

Variable network : list event -> request -> reply.
Hypothesis no401 : never_unauthorized network.

Variable login : M unit.
Variables (method : string) (url params data : value) (st : state).
Hypothesis supported : method = "GET" \/ method = "POST".

Let q := outgoing method url data st.

(** One try, after the events [evs]: the same request and nothing else. *)
Lemma body_quiet evs :
  exists r,
    make_request_body network login method url params data (emit evs st)
    = Some (r, emit (evs ++ [Sent q]) st).
Proof.
  pose proof (outgoing_emit method url data evs st) as Eq.
  destruct (network (trace (emit evs st)) (outgoing method url data (emit evs st)))
    as [r | e] eqn:E.
  - pose proof (no401 _ _ _ E) as H401.
    destruct (transient (Response r)) eqn:Et.
    + eexists.
      rewrite (body_transient network login method url params data (emit evs st)
                              supported r E Et).
      now rewrite Eq, log_emit.
    + destruct (accepted (status_code r)) eqn:Ea.
      * rewrite (body_accepted network login method url params data (emit evs st)
                               supported r E Ea).
        unfold response_json. rewrite Eq, log_emit.
        destruct (json r); eexists; reflexivity.
      * eexists.
        rewrite (body_fatal network login method url params data (emit evs st)
                            supported r E Ea H401).
        -- now rewrite Eq, log_emit.
        -- simpl in Et. apply orb_false_iff in Et. destruct Et as [Et _].
           now apply Z.eqb_neq.
        -- simpl in Et. apply orb_false_iff in Et. destruct Et as [_ Et].
           rewrite Z.geb_leb in Et. apply Z.leb_gt in Et. exact Et.
  - eexists.
    rewrite (body_fails network login method url params data (emit evs st) supported e E).
    now rewrite Eq, log_emit.
Qed.

Lemma tries_trace_S k n :
  tries_trace q (S (S k)) n = Sent q :: Backoff (expo 2 n) :: tries_trace q (S k) (S n).
Proof. reflexivity. Qed.

(** The loop of the decorator: [k] tries, at most one more than [more];
    all of them when the last result is a retried exception. *)
Lemma retry_quiet more :
  forall n evs,
  exists k r,
    retry 2 more n (make_request_body network login method url params data) (emit evs st)
    = Some (r, emit (evs ++ tries_trace q k n) st)
    /\ (1 <= k <= S more)%nat
    /\ (forall e, r = Raise e -> retried e = true -> k = S more).
Proof.
  induction more as [| more IH]; intros n evs.
  - destruct (body_quiet evs) as [r Hb].
    exists 1%nat, r. split; [| split; [lia | reflexivity]].
    destruct r as [v | e].
    + now apply retry_returns.
    + destruct (retried e) eqn:He.
      * now apply retry_gives_up.
      * now apply retry_escapes.
  - destruct (body_quiet evs) as [r Hb].
    destruct r as [v | e].
    + exists 1%nat, (Ret v). split; [now apply retry_returns |].
      split; [lia | discriminate].
    + destruct (retried e) eqn:He.
      * rewrite (retry_again _ _ _ _ _ _ _ Hb He), log_emit.
        destruct (IH (S n) ((evs ++ [Sent q]) ++ [Backoff (expo 2 n)])%list)
          as (k & r & Hr & Hk & Hlast).
        exists (S k), r. split; [| split; [lia |]].
        -- rewrite Hr. f_equal. f_equal. f_equal.
           destruct k as [| k]; [lia |].
           rewrite tries_trace_S, <- !app_assoc. reflexivity.
        -- intros e' He' Hre'. f_equal. now apply (Hlast e').
      * exists 1%nat, (Raise e). split; [now apply retry_escapes |].
        split; [lia |]. intros e' He'. injection He' as <-. congruence.
Qed.

End Quiet.

(** X2: on a network that never answers 401, a call of [make_request] with
    GET or POST always ends, and all it does is send the same request
    between one and five times and sleep before every further try: a
    random time, bounded by the next value of the wait generator (2, 4, 8,
    16, in this order).  Every field of the client is as before.  It ends
    with a retried exception only after the fifth try. *)
Theorem make_request_tries_at_most_five
        (network : list event -> request -> reply) (depth : nat)
        (method : string) (url params data : value) (st : state) :
  never_unauthorized network ->
  method = "GET" \/ method = "POST" ->
  exists k r,
    make_request network (S depth) method url params data st
    = Some (r, emit (tries_trace (outgoing method url data st) k 0) st)
    /\ (1 <= k <= 5)%nat
    /\ (forall e, r = Raise e -> retried e = true -> k = 5%nat).
Proof.
  intros Hn Hm. rewrite make_request_S. unfold on_exception.
  destruct (retry_quiet network Hn (login network depth) method url params data st Hm
                        4 0 []) as (k & r & Hr & Hk & Hlast).
  exists k, r.
  assert (E0 : emit [] st = st) by (destruct st; unfold emit; simpl; now rewrite app_nil_r).
  rewrite E0 in Hr. simpl in Hr. auto.
Qed.

Lemma make_request_tries_at_most_five_witness :
  let flaky := scripted [status 503 "unavailable"; status 429 "slow down"]
                        (ok (VDict Scenario.P2)) in
  never_unauthorized flaky
  /\ exists k r,
       make_request flaky 1 "GET" Scenario.users_url VNone VNone Scenario.st0
       = Some (r, emit (tries_trace Scenario.get_users k 0) Scenario.st0)
       /\ (1 <= k <= 5)%nat
       /\ (forall e, r = Raise e -> retried e = true -> k = 5%nat).
Proof.
  intros flaky.
  assert (Hn : never_unauthorized flaky).
  { intros h q r. unfold flaky, scripted.
    destruct (sent_count h) as [| [| [| n]]]; simpl; intros H; injection H as <-;
      discriminate. }
  split; [exact Hn |].
  apply (make_request_tries_at_most_five flaky 0 "GET" Scenario.users_url VNone VNone
           Scenario.st0 Hn).
  left. reflexivity.
Defined.

(* ===================================================================== *)
(** ** get_all_resources over any number of pages                        *)
(* ===================================================================== *)

Lemma extend_from_empty (acc : list value) (data : value) :
  extend acc data
  = match extend [] data with
    | Ret l => Ret (acc ++ l)%list
    | Raise e => Raise e
    end.
Proof. destruct data; reflexivity. Qed.

Lemma page_records_nonempty (d : dict) (l : list value) :
  page_records d = Ret l -> d <> [].
Proof. intros H ->. discriminate H. Qed.

Section Loop.

Variable request : value -> M value.

Lemma fetch_pages_records n url acc st d l st1 :
  truthy url = true ->
  request url st = Some (Ret (VDict d), st1) ->
  d <> [] ->
  page_records d = Ret l ->
  fetch_pages request (S n) url acc st
  = fetch_pages request n (dict_get d "@odata.nextLink" VNone) (acc ++ l)%list st1.
Proof.
  intros Hu Hr Hd Hl. cbn [fetch_pages]. rewrite Hu. unfold bind at 1. rewrite Hr.
  rewrite (truthy_dict d Hd). unfold bind, lift, Py.get.
  rewrite extend_from_empty. unfold page_records in Hl. rewrite Hl. reflexivity.
Qed.

Lemma fetch_pages_bad_records n url acc st d e st1 :
  truthy url = true ->
  request url st = Some (Ret (VDict d), st1) ->
  d <> [] ->
  page_records d = Raise e ->
  fetch_pages request (S n) url acc st = Some (Raise e, st1).
Proof.
  intros Hu Hr Hd Hl. cbn [fetch_pages]. rewrite Hu. unfold bind at 1. rewrite Hr.
  rewrite (truthy_dict d Hd). unfold bind, lift, Py.get.
  rewrite extend_from_empty. unfold page_records in Hl. rewrite Hl. reflexivity.
Qed.

Lemma fetch_pages_not_object n url acc st body st1 :
  truthy url = true ->
  request url st = Some (Ret body, st1) ->
  truthy body = true ->
  (forall d, body <> VDict d) ->
  fetch_pages request (S n) url acc st = Some (Raise AttributeError, st1).
Proof.
  intros Hu Hr Hb Hd. cbn [fetch_pages]. rewrite Hu. unfold bind at 1. rewrite Hr, Hb.
  destruct body; try reflexivity. now destruct (Hd d).
Qed.

Lemma fetch_pages_raises n url acc st e st1 :
  truthy url = true ->
  request url st = Some (Raise e, st1) ->
  fetch_pages request (S n) url acc st = Some (Raise e, st1).
Proof.
  intros Hu Hr. cbn [fetch_pages]. rewrite Hu. unfold bind. now rewrite Hr.
Qed.

Lemma fetch_fails_raises k url st e st2 :
  fetch_fails request k url st e st2 ->
  forall n acc, (k <= n)%nat ->
  fetch_pages request n url acc st = Some (Raise e, st2).
Proof.
  induction 1 as [url st e st1 Hu Hr
                 | url st body st1 Hu Hr Hb Hd
                 | url st d e st1 Hu Hr Hd Hl
                 | k url st d l st1 e st2 Hu Hr Hd Hl Hrest IH];
    intros n acc Hk; (destruct n as [| n]; [lia |]).
  - now apply fetch_pages_raises.
  - now apply fetch_pages_not_object with (body := body).
  - now apply fetch_pages_bad_records with (d := d).
  - rewrite (fetch_pages_records n url acc st d l st1); auto.
    apply IH. lia.
Qed.

End Loop.

Section Chain.

Variable network : list event -> request -> reply.
Variable depth : nat.

Let request := fun url => make_request network (S depth) "GET" url VNone VNone.

Lemma get_page url st r body :
  network (trace st) (mkRequest "GET" url (headers_of st) VNone) = Response r ->
  accepted (status_code r) = true ->
  json r = Some body ->
  request url st
  = Some (Ret body, log (Sent (mkRequest "GET" url (headers_of st) VNone)) st).
Proof.
  intros H Ha Hj. subst request. cbv beta.
  rewrite (make_request_accepted network depth "GET" url VNone VNone
                                 (or_introl eq_refl) st r H Ha).
  unfold response_json. now rewrite Hj.
Qed.

Lemma chain_fetch hdrs url h ds :
  chain network hdrs url h ds ->
  forall st n acc,
    trace st = h -> headers_of st = hdrs -> (List.length ds <= n)%nat ->
    fetch_pages request n url acc st
    = Some (Ret (acc ++ records ds)%list, emit (gets hdrs url ds) st).
Proof.
  induction 1 as [url h Hu | url h r d l ds Hu Hnet Ha Hj Hd Hl Hrest IH];
    intros st n acc Ht Hh Hlen.
  - simpl. rewrite app_nil_r.
    assert (E0 : emit [] st = st)
      by (destruct st; unfold emit; simpl; now rewrite app_nil_r).
    rewrite E0. now apply fetch_pages_done.
  - destruct n as [| n]; [simpl in Hlen; lia |].
    subst h hdrs.
    rewrite (fetch_pages_records request n url acc st d l _ Hu
               (get_page url st r (VDict d) Hnet Ha Hj) Hd Hl).
    rewrite (IH (log (Sent (mkRequest "GET" url (headers_of st) VNone)) st) n
                (acc ++ l)%list eq_refl eq_refl) by (simpl in Hlen; lia).
    simpl. rewrite Hl, <- app_assoc. unfold log. rewrite emit_emit. reflexivity.
Qed.

(** On an endless network the loop uses up every budget of pages. *)
Lemma endless_fetch :
  endless network ->
  forall pages url acc st,
    truthy url = true -> fetch_pages request pages url acc st = None.
Proof.
  intros He pages. induction pages as [| pages IH]; intros url acc st Hu.
  - simpl. now rewrite Hu.
  - destruct (He (trace st) (mkRequest "GET" url (headers_of st) VNone))
      as (r & d & l & Hnet & Ha & Hj & Hl & Hc).
    rewrite (fetch_pages_records request pages url acc st d l _ Hu
               (get_page url st r (VDict d) Hnet Ha Hj)
               (page_records_nonempty d l Hl) Hl).
    now apply IH.
Qed.

End Chain.

(** X3: when the network serves a chain of pages from the first URL on
    (each an accepted non-empty object with records, each after the first
    at the ['@odata.nextLink'] of the one before, used as it is, the last
    with a falsy cursor), [get_all_resources] returns the records of all
    pages in this order and has sent exactly one GET per page, all with the
    headers of the start state; nothing else of the client changes. *)
Theorem get_all_resources_follows_the_cursors
        (network : list event -> request -> reply) (depth pages : nat)
        (version endpoint : string) (top orderby filter_param : value)
        (url1 : string) (ds : list dict) (st : state) :
  build_url BASE_GRAPH_URL version endpoint (query_args top orderby filter_param)
  = Ret url1 ->
  chain network (headers_of st) (VStr url1) (trace st) ds ->
  (List.length ds <= pages)%nat ->
  get_all_resources network (S depth) pages version endpoint top orderby filter_param st
  = Some (Ret (records ds), emit (gets (headers_of st) (VStr url1) ds) st).
Proof.
  intros Hurl Hc Hlen. unfold get_all_resources, bind, lift. rewrite Hurl.
  now rewrite (chain_fetch network depth _ _ _ _ Hc st pages [] eq_refl eq_refl Hlen).
Qed.

Lemma get_all_resources_follows_the_cursors_witness :
  let hdrs := headers_of Scenario.st0 in
  let get u := Sent (mkRequest "GET" (VStr u) hdrs VNone) in
  chain Cases.graph hdrs Scenario.users_url [] [Cases.Q1; Cases.Q2; Cases.Q3]
  /\ get_all_resources Cases.graph 1 3 "v1.0" "users" VNone VNone VNone Scenario.st0
     = Some (Ret [Scenario.a; Scenario.b; Scenario.c; Cases.d],
             emit [get "https://graph.microsoft.com/v1.0/users"; get Scenario.U2;
                   get Cases.U3] Scenario.st0).
Proof.
  intros hdrs get.
  assert (Hc : chain Cases.graph hdrs Scenario.users_url [] [Cases.Q1; Cases.Q2; Cases.Q3]).
  { eapply chain_page; try reflexivity; [discriminate |].
    eapply chain_page; try reflexivity; [discriminate |].
    eapply chain_page; try reflexivity; [discriminate |].
    apply chain_end. reflexivity. }
  split; [exact Hc |].
  apply (get_all_resources_follows_the_cursors
           Cases.graph 0 3 "v1.0" "users" VNone VNone VNone
           "https://graph.microsoft.com/v1.0/users" [Cases.Q1; Cases.Q2; Cases.Q3]
           Scenario.st0 eq_refl Hc).
  simpl. lia.
Defined.

(** X4: when the loop meets an exception at some page (the request raises,
    or the body is a truthy value that is no object, or the ['value'] of
    the page cannot be iterated), [get_all_resources] ends with that
    exception: the records of the pages before are not returned. *)
Theorem get_all_resources_loses_pages_on_error
        (network : list event -> request -> reply) (depth pages k : nat)
        (version endpoint : string) (top orderby filter_param : value)
        (url1 : string) (e : exn) (st st2 : state) :
  build_url BASE_GRAPH_URL version endpoint (query_args top orderby filter_param)
  = Ret url1 ->
  fetch_fails (fun url => make_request network depth "GET" url VNone VNone)
              k (VStr url1) st e st2 ->
  (k <= pages)%nat ->
  get_all_resources network depth pages version endpoint top orderby filter_param st
  = Some (Raise e, st2).
Proof.
  intros Hurl Hf Hk. unfold get_all_resources, bind, lift. rewrite Hurl.
  now apply fetch_fails_raises with (k := k).
Qed.

Lemma get_all_resources_loses_pages_on_error_witness :
  let network := scripted [ok (VDict Scenario.P1); ok (VList [Scenario.c])]
                          (status 500 "unavailable") in
  let second := mkRequest "GET" (VStr Scenario.U2) (headers_of Scenario.st0) VNone in
  get_all_resources network 1 5 "v1.0" "users" VNone VNone VNone Scenario.st0
  = Some (Raise AttributeError, emit [Sent Scenario.get_users; Sent second] Scenario.st0).
Proof.
  intros network second.
  apply (get_all_resources_loses_pages_on_error
           network 1 5 2 "v1.0" "users" VNone VNone VNone
           "https://graph.microsoft.com/v1.0/users" AttributeError Scenario.st0
           (emit [Sent Scenario.get_users; Sent second] Scenario.st0) eq_refl);
    [| lia].
  eapply fails_later; try reflexivity; [discriminate |].
  eapply fails_not_object; try reflexivity. discriminate.
Defined.

(** X5: [get_all_resources] has no bound on the number of pages: on a
    network where every page has a truthy cursor, the loop never ends (no
    budget of iterations is enough). *)
Theorem get_all_resources_never_ends_on_endless_cursors
        (network : list event -> request -> reply) (depth pages : nat)
        (version endpoint : string) (top orderby filter_param : value) (st : state) :
  endless network ->
  get_all_resources network (S depth) pages version endpoint top orderby filter_param st
  = None.
Proof.
  intros He. unfold get_all_resources, bind, lift. rewrite build_url_graph.
  apply endless_fetch; [exact He | reflexivity].
Qed.

Lemma get_all_resources_never_ends_on_endless_cursors_witness :
  endless (always (ok (VDict Scenario.P1)))
  /\ get_all_resources (always (ok (VDict Scenario.P1))) 1 1000
                       "v1.0" "users" VNone VNone VNone Scenario.st0 = None.
Proof.
  assert (He : endless (always (ok (VDict Scenario.P1)))).
  { intros h q. do 3 eexists. repeat split. }
  split; [exact He |].
  now apply (get_all_resources_never_ends_on_endless_cursors
               (always (ok (VDict Scenario.P1))) 0 1000).
Defined.

(* ===================================================================== *)
(** ** 401 and the re-login                                              *)
(* ===================================================================== *)

(** X7: when the re-login after a 401 fails with an exception that the
    decorator does not retry, [make_request] ends with the exception of the
    login, not with the [RuntimeError] of the 401, and the request is not
    sent again. *)
Theorem relogin_failure_escapes
        (network : list event -> request -> reply) (depth : nat)
        (method : string) (url params data : value) (st st2 : state)
        (r : response) (e : exn) :
  method = "GET" \/ method = "POST" ->
  network (trace st) (outgoing method url data st) = Response r ->
  status_code r = 401%Z ->
  login network depth (log (Sent (outgoing method url data st)) st) = Some (Raise e, st2) ->
  retried e = false ->
  make_request network (S depth) method url params data st = Some (Raise e, st2).
Proof.
  intros Hm Hr Hs Hl He. rewrite make_request_S. unfold on_exception.
  apply retry_escapes; [| exact He].
  rewrite (body_unauthorized network _ method url params data st Hm r Hr Hs).
  now rewrite Hl.
Qed.

Lemma relogin_failure_escapes_witness :
  let network := scripted [status 401 "unauthorized"; status 400 "invalid_client"]
                          (ok (VDict Scenario.P2)) in
  let after := armed (log (Sent Scenario.token_request)
                          (with_credentials (log (Sent Scenario.get_users) Scenario.st0))) in
  login network 1 (log (Sent Scenario.get_users) Scenario.st0)
  = Some (Raise (RuntimeError "invalid_client"), after)
  /\ make_request network 2 "GET" Scenario.users_url VNone VNone Scenario.st0
     = Some (Raise (RuntimeError "invalid_client"), after).
Proof.
  intros network after. split; [reflexivity |].
  apply (relogin_failure_escapes network 1 "GET" Scenario.users_url VNone VNone
           Scenario.st0 after (mkResponse 401 "unauthorized" None));
    [left; reflexivity | reflexivity | reflexivity | reflexivity | reflexivity].
Defined.

(* ===================================================================== *)
(** ** login on the network                                              *)
(* ===================================================================== *)

Lemma count_timers_app (a b : list event) :
  count_timers (a ++ b) = (count_timers a + count_timers b)%nat.
Proof. unfold count_timers. now rewrite filter_app, length_app. Qed.

Lemma count_timers_tries (q : request) (k : nat) :
  forall n, count_timers (tries_trace q k n) = 0%nat.
Proof.
  induction k as [| k IH]; intros n; [reflexivity |].
  destruct k as [| k]; [reflexivity |].
  change (tries_trace q (S (S k)) n)
    with ([Sent q; Backoff (expo 2 n)] ++ tries_trace q (S k) (S n))%list.
  rewrite count_timers_app, IH. reflexivity.
Qed.

Lemma token_call_request network depth st :
  token_call network (S depth) st
  = make_request network (S depth) "POST"
                 (VStr (TOKEN_URL (dict_get (config st) "tenant_id" VNone)))
                 VNone (token_request_body st) (with_credentials st)
  /\ outgoing "POST" (VStr (TOKEN_URL (dict_get (config st) "tenant_id" VNone)))
              (token_request_body st) (with_credentials st)
     = mkRequest "POST" (VStr (TOKEN_URL (dict_get (config st) "tenant_id" VNone)))
                 [] (token_request_body st).
Proof. split; reflexivity. Qed.

(** X8: when the token endpoint accepts the token request and answers with
    an object, [login] sends exactly that one request (a POST without
    headers to the token URL of the configured tenant, with the client
    credentials form), stores the ['access_token'] of the object, starts the
    timer and returns; the next GET of the client carries [Bearer] and
    that token. *)
Theorem login_stores_the_token
        (network : list event -> request -> reply) (depth : nat) (st : state)
        (r : response) (d : dict) :
  let q := mkRequest "POST" (VStr (TOKEN_URL (dict_get (config st) "tenant_id" VNone)))
                     [] (token_request_body st) in
  let st' := armed (set_access_token (dict_get d "access_token" VNone)
                                     (log (Sent q) (with_credentials st))) in
  network (trace st) q = Response r ->
  accepted (status_code r) = true ->
  json r = Some (VDict d) ->
  login network (S depth) st = Some (Ret tt, st')
  /\ trace st' = (trace st ++ [Sent q; TimerStarted TOKEN_EXPIRATION_PERIOD])%list
  /\ forall url data,
       lookup "Authorization" (req_headers (outgoing "GET" url data st'))
       = Some (VStr ("Bearer " ++ str (dict_get d "access_token" VNone))).
Proof.
  intros q st' Hr Ha Hj. split; [| split].
  - rewrite login_unfold. destruct (token_call_request network depth st) as [-> Hq].
    rewrite (make_request_accepted network depth "POST" _ VNone _ (or_intror eq_refl)
                                   (with_credentials st) r);
      [| rewrite Hq; exact Hr | exact Ha].
    unfold response_json. rewrite Hj, Hq. reflexivity.
  - subst st'. simpl. now rewrite <- app_assoc.
  - intros url data. apply get_has_authorization.
Qed.

Lemma login_stores_the_token_witness :
  let network := always (ok Scenario.token_T2) in
  let st' := armed (set_access_token (VStr "T2")
                      (log (Sent Scenario.token_request)
                           (with_credentials (__init__ Scenario.cfg)))) in
  login network 1 (__init__ Scenario.cfg) = Some (Ret tt, st')
  /\ trace st' = [Sent Scenario.token_request; TimerStarted TOKEN_EXPIRATION_PERIOD]
  /\ forall url data,
       lookup "Authorization" (req_headers (outgoing "GET" url data st'))
       = Some (VStr "Bearer T2").
Proof.
  intros network st'.
  apply (login_stores_the_token network 0 (__init__ Scenario.cfg)
           (mkResponse 200 "ok" (Some Scenario.token_T2))
           [("token_type", VStr "Bearer"); ("access_token", VStr "T2")]);
    reflexivity.
Defined.

(** X9: on a network that never answers 401, [login] always ends, and all
    it does to the world is send its token request between one and five
    times (with the waits of the decorator between the tries) and then start
    exactly one timer; the timer is started however the token request
    ended. *)
Theorem login_sends_then_arms
        (network : list event -> request -> reply) (depth : nat) (st : state) :
  never_unauthorized network ->
  let q := mkRequest "POST" (VStr (TOKEN_URL (dict_get (config st) "tenant_id" VNone)))
                     [] (token_request_body st) in
  exists k r st',
    login network (S depth) st = Some (r, st')
    /\ (1 <= k <= 5)%nat
    /\ trace st' = (trace st ++ tries_trace q k 0
                              ++ [TimerStarted TOKEN_EXPIRATION_PERIOD])%list
    /\ count_timers (tries_trace q k 0 ++ [TimerStarted TOKEN_EXPIRATION_PERIOD]) = 1%nat.
Proof.
  intros Hn q.
  destruct (retry_quiet network Hn (login network depth) "POST"
              (VStr (TOKEN_URL (dict_get (config st) "tenant_id" VNone)))
              VNone (token_request_body st) (with_credentials st)
              (or_intror eq_refl) 4 0 []) as (k & r & Hr & Hk & _).
  assert (E0 : emit [] (with_credentials st) = with_credentials st)
    by (destruct st; unfold emit, with_credentials, set_credentials; simpl;
        now rewrite app_nil_r).
  rewrite E0 in Hr. simpl app in Hr.
  assert (Ht : token_call network (S depth) st
               = Some (r, emit (tries_trace q k 0) (with_credentials st))).
  { unfold token_call. rewrite make_request_S. unfold on_exception. exact Hr. }
  assert (Hcount : count_timers (tries_trace q k 0 ++ [TimerStarted TOKEN_EXPIRATION_PERIOD])
                   = 1%nat).
  { rewrite count_timers_app, count_timers_tries. reflexivity. }
  rewrite login_unfold, Ht.
  destruct r as [v | e]; [destruct v |];
    eexists k, _, _; (split; [reflexivity | split; [exact Hk | split; [| exact Hcount]]]);
    simpl; now rewrite <- app_assoc.
Qed.

Lemma login_sends_then_arms_witness :
  let down := always (status 503 "unavailable") in
  never_unauthorized down
  /\ exists k r st',
       login down 1 Scenario.st0 = Some (r, st')
       /\ (1 <= k <= 5)%nat
       /\ trace st' = (trace Scenario.st0 ++ tries_trace Scenario.token_request k 0
                                          ++ [TimerStarted TOKEN_EXPIRATION_PERIOD])%list
       /\ count_timers (tries_trace Scenario.token_request k 0
                                    ++ [TimerStarted TOKEN_EXPIRATION_PERIOD]) = 1%nat.
Proof.
  intros down.
  assert (Hn : never_unauthorized down).
  { intros h q r H. injection H as <-. discriminate. }
  split; [exact Hn |].
  exact (login_sends_then_arms down 0 Scenario.st0 Hn).
Defined.

(* ===================================================================== *)
(** ** What get_all_resources does to the client                         *)
(* ===================================================================== *)

Lemma read_event_tries hdrs url k :
  forall n, Forall (read_event hdrs) (tries_trace (mkRequest "GET" url hdrs VNone) k n).
Proof.
  induction k as [| k IH]; intros n; [constructor |].
  destruct k as [| k].
  - repeat constructor.
  - change (tries_trace (mkRequest "GET" url hdrs VNone) (S (S k)) n)
      with (Sent (mkRequest "GET" url hdrs VNone) :: Backoff (expo 2 n)
            :: tries_trace (mkRequest "GET" url hdrs VNone) (S k) (S n)).
    constructor; [repeat split |]. constructor; [exact I | apply IH].
Qed.

Section ReadOnly.

Variable network : list event -> request -> reply.
Hypothesis no401 : never_unauthorized network.
Variable depth : nat.
Variable st : state.

Let request := fun url => make_request network (S depth) "GET" url VNone VNone.

Lemma request_read_only url evs :
  exists k r,
    request url (emit evs st)
    = Some (r, emit (evs ++ tries_trace (mkRequest "GET" url (headers_of st) VNone) k 0) st).
Proof.
  subst request. cbv beta. rewrite make_request_S. unfold on_exception.
  destruct (retry_quiet network no401 (login network depth) "GET" url VNone VNone st
                        (or_introl eq_refl) 4 0 evs) as (k & r & Hr & _).
  exists k, r. exact Hr.
Qed.

Lemma fetch_read_only pages :
  forall url acc evs r st',
    Forall (read_event (headers_of st)) evs ->
    fetch_pages request pages url acc (emit evs st) = Some (r, st') ->
    exists evs', st' = emit evs' st /\ Forall (read_event (headers_of st)) evs'.
Proof.
  induction pages as [| pages IH]; intros url acc evs r st' Hevs H.
  - simpl in H. destruct (truthy url); [discriminate |].
    injection H as _ <-. eauto.
  - cbn [fetch_pages] in H. destruct (truthy url).
    + destruct (request_read_only url evs) as (k & r0 & Hreq).
      unfold bind at 1 in H. rewrite Hreq in H.
      assert (Hevs' : Forall (read_event (headers_of st))
                             (evs ++ tries_trace (mkRequest "GET" url (headers_of st) VNone)
                                                 k 0)).
      { apply Forall_app. split; [exact Hevs | apply read_event_tries]. }
      destruct r0 as [body | e]; [| injection H as _ <-; eauto].
      destruct (truthy body).
      * unfold bind, lift in H.
        destruct (Py.get body "@odata.nextLink" VNone) as [next | e];
          [| injection H as _ <-; eauto].
        destruct (Py.get body "value" VNone) as [data | e];
          [| injection H as _ <-; eauto].
        destruct (extend acc data) as [acc' | e];
          [| injection H as _ <-; eauto].
        now apply (IH next acc' _ r st' Hevs').
      * now apply (IH VNone acc _ r st' Hevs').
    + injection H as _ <-. eauto.
Qed.

End ReadOnly.

(** X10: on a network that never answers 401, whatever way
    [get_all_resources] ends, all it has done is send GETs with the headers
    of the start state (so with the same bearer token) and wait between
    retries: no POST, no timer, and the token and every other field of the
    client are as before. *)
Theorem get_all_resources_only_reads
        (network : list event -> request -> reply) (depth pages : nat)
        (version endpoint : string) (top orderby filter_param : value)
        (st st' : state) (r : result (list value)) :
  never_unauthorized network ->
  get_all_resources network (S depth) pages version endpoint top orderby filter_param st
  = Some (r, st') ->
  exists evs, st' = emit evs st /\ Forall (read_event (headers_of st)) evs.
Proof.
  intros Hn H. unfold get_all_resources, bind, lift in H.
  rewrite build_url_graph in H.
  assert (E0 : emit [] st = st)
    by (destruct st; unfold emit; simpl; now rewrite app_nil_r).
  rewrite <- E0 in H at 1.
  eapply (fetch_read_only network Hn depth st pages); [constructor | exact H].
Qed.

Lemma get_all_resources_only_reads_witness :
  never_unauthorized Cases.graph
  /\ get_all_resources Cases.graph 1 3 "v1.0" "users" VNone VNone VNone Scenario.st0
     = Some (Ret [Scenario.a; Scenario.b; Scenario.c; Cases.d],
             emit [Sent Scenario.get_users;
                   Sent (mkRequest "GET" (VStr Scenario.U2) (headers_of Scenario.st0) VNone);
                   Sent (mkRequest "GET" (VStr Cases.U3) (headers_of Scenario.st0) VNone)]
                  Scenario.st0)
  /\ exists evs,
       emit [Sent Scenario.get_users;
             Sent (mkRequest "GET" (VStr Scenario.U2) (headers_of Scenario.st0) VNone);
             Sent (mkRequest "GET" (VStr Cases.U3) (headers_of Scenario.st0) VNone)]
            Scenario.st0
       = emit evs Scenario.st0
       /\ Forall (read_event (headers_of Scenario.st0)) evs.
Proof.
  assert (Hn : never_unauthorized Cases.graph).
  { intros h q r. unfold Cases.graph.
    destruct (req_url q) as [| | | u | |]; try (intros H; injection H as <-; discriminate).
    repeat (match goal with |- context [if ?b then _ else _] => destruct b end);
      intros H; injection H as <-; discriminate. }
  split; [exact Hn | split; [reflexivity |]].
  apply (get_all_resources_only_reads Cases.graph 0 3 "v1.0" "users" VNone VNone VNone
           Scenario.st0 _ (Ret [Scenario.a; Scenario.b; Scenario.c; Cases.d]) Hn).
  reflexivity.
Defined.

(* ===================================================================== *)
(** ** The query of the first URL                                        *)
(* ===================================================================== *)

(** X11: the query arguments of [get_all_resources] are the hints that are
    truthy, in the order [$top], [$orderby], [$filter]: a hint that is
    [None], 0 or the empty string is left out, and with no hint at all the
    first URL has no query. *)
Theorem query_args_are_the_truthy_hints (top orderby filter_param : value) :
  query_args top orderby filter_param
  = filter (fun kv => truthy (snd kv))
           [("$top", top); ("$orderby", orderby); ("$filter", filter_param)]
  /\ query_args (VInt 0) (VStr EmptyString) VNone = []
  /\ forall version endpoint,
       build_url BASE_GRAPH_URL version endpoint (query_args (VInt 0) (VStr EmptyString) VNone)
       = Ret ("https://graph.microsoft.com"
              ++ (if (upto 1 (version ++ "/" ++ endpoint) =? "/")%string
                  then EmptyString else "/")
              ++ version ++ "/" ++ endpoint).
Proof.
  split; [| split; [reflexivity |]].
  - unfold query_args. simpl.
    destruct (truthy top), (truthy orderby), (truthy filter_param); reflexivity.
  - intros version endpoint. rewrite build_url_graph. simpl.
    now rewrite append_empty_r.
Qed.

(* ===================================================================== *)
(** ** The characters of an encoded query                                *)
(* ===================================================================== *)

Lemma forallb_str_app (p : ascii -> bool) (a b : string) :
  forallb_str p (a ++ b) = forallb_str p a && forallb_str p b.
Proof.
  induction a as [| c a IH]; simpl; [reflexivity |].
  now rewrite IH, andb_assoc.
Qed.

Lemma forallb_str_weaken (p p' : ascii -> bool) (s : string) :
  (forall c, p c = true -> p' c = true) ->
  forallb_str p s = true -> forallb_str p' s = true.
Proof.
  intros Hp. induction s as [| c s IH]; simpl; [reflexivity |].
  intros H. apply andb_true_iff in H. destruct H as [Hc Hs].
  now rewrite (Hp c Hc), IH.
Qed.

Lemma forallb_str_excludes (p : ascii -> bool) (c : ascii) (s : string) :
  p c = false -> forallb_str p s = true -> contains c s = false.
Proof.
  intros Hc. induction s as [| x s IH]; simpl; [reflexivity |].
  intros H. apply andb_true_iff in H. destruct H as [Hx Hs].
  rewrite (IH Hs), orb_false_r.
  destruct (Ascii.eqb_spec x c) as [-> |]; [congruence | reflexivity].
Qed.

(** The escapes of one character, by running through all characters. *)
Lemma quote_char_quoted (c : ascii) :
  forallb_str quoted_char
    (fold_right (fun b acc => quote_byte EmptyString b ++ acc) EmptyString (utf8 c)) = true.
Proof. destruct c as [[] [] [] [] [] [] [] []]; vm_compute; reflexivity. Qed.

Lemma quote_char_quoted_or_space (c : ascii) :
  forallb_str (fun x => quoted_char x || Ascii.eqb x " "%char)
    (fold_right (fun b acc => quote_byte " " b ++ acc) EmptyString (utf8 c)) = true.
Proof. destruct c as [[] [] [] [] [] [] [] []]; vm_compute; reflexivity. Qed.

Lemma quote_quoted (s : string) :
  forallb_str quoted_char (quote EmptyString s) = true.
Proof.
  induction s as [| c s IH]; [reflexivity |].
  cbn [quote]. now rewrite forallb_str_app, quote_char_quoted, IH.
Qed.

Lemma quote_quoted_or_space (s : string) :
  forallb_str (fun x => quoted_char x || Ascii.eqb x " "%char) (quote " " s) = true.
Proof.
  induction s as [| c s IH]; [reflexivity |].
  cbn [quote]. now rewrite forallb_str_app, quote_char_quoted_or_space, IH.
Qed.

Lemma replace_space_quoted (s : string) :
  forallb_str (fun x => quoted_char x || Ascii.eqb x " "%char) s = true ->
  forallb_str quoted_char (replace_char " "%char "+"%char s) = true.
Proof.
  induction s as [| c s IH]; simpl; [reflexivity |].
  intros H. apply andb_true_iff in H. destruct H as [Hc Hs].
  rewrite (IH Hs), andb_true_r.
  destruct (Ascii.eqb c " "%char); [reflexivity |].
  now rewrite orb_false_r in Hc.
Qed.

Lemma quote_plus_quoted (s : string) :
  forallb_str quoted_char (quote_plus s) = true.
Proof.
  unfold quote_plus. destruct (negb (contains " "%char s)).
  - apply quote_quoted.
  - apply replace_space_quoted, quote_quoted_or_space.
Qed.

Lemma quoted_is_query (c : ascii) : quoted_char c = true -> query_char c = true.
Proof. unfold query_char. now intros ->. Qed.

Lemma urlencode_query_chars (q : dict) :
  forallb_str query_char (urlencode q) = true.
Proof.
  unfold urlencode.
  assert (Hitem : forall k v,
             forallb_str query_char (quote_plus k ++ "=" ++ quote_plus (str v)) = true).
  { intros k v. rewrite !forallb_str_app.
    rewrite (forallb_str_weaken _ _ _ quoted_is_query (quote_plus_quoted k)).
    rewrite (forallb_str_weaken _ _ _ quoted_is_query (quote_plus_quoted (str v))).
    reflexivity. }
  induction q as [| [k v] q IH]; [reflexivity |].
  destruct q as [| kv q]; [apply Hitem |].
  change (forallb_str query_char
            ((quote_plus k ++ "=" ++ quote_plus (str v))
             ++ "&" ++ join "&" (map (fun kv => let '(k, v) := kv in
                                       quote_plus k ++ "=" ++ quote_plus (str v))
                                     (kv :: q))) = true).
  rewrite forallb_str_app, Hitem, forallb_str_app, IH. reflexivity.
Qed.

(** X12: whatever the keys and values are, the query that [build_url] puts
    into the URL consists of letters, digits, [_ . - ~ + %], [=] and [&]
    only: a key or a value is never able to put a [#], [?], [/], [;] or a
    space into the URL, nor an [&] or [=] of its own. *)
Theorem encoded_query_is_inert (q : dict) :
  forallb_str query_char (urlencode q) = true
  /\ (forall s, forallb_str quoted_char (quote_plus s) = true)
  /\ contains "#"%char (urlencode q) = false
  /\ contains "?"%char (urlencode q) = false
  /\ contains "/"%char (urlencode q) = false
  /\ contains ";"%char (urlencode q) = false
  /\ contains " "%char (urlencode q) = false
  /\ (forall s, contains "&"%char (quote_plus s) = false)
  /\ (forall s, contains "="%char (quote_plus s) = false).
Proof.
  pose proof (urlencode_query_chars q) as H.
  repeat split;
    try exact H; try apply quote_plus_quoted;
    try (apply (forallb_str_excludes query_char); [reflexivity | exact H]);
    intros s; apply (forallb_str_excludes quoted_char);
    try reflexivity; apply quote_plus_quoted.
Qed.

(* ===================================================================== *)
(** ** A 401 while the token endpoint is failing                         *)
(* ===================================================================== *)

Lemma count_sent_app m (a b : list event) :
  count_sent m (a ++ b) = (count_sent m a + count_sent m b)%nat.
Proof. unfold count_sent. now rewrite filter_app, length_app. Qed.

Lemma transient_error_retried (rp : reply) :
  transient rp = true -> retried (error_of rp) = true.
Proof.
  destruct rp as [r | e]; simpl; [| auto].
  intros _. destruct (status_code r =? 429)%Z; reflexivity.
Qed.

Section LockedOut.

Variable network : list event -> request -> reply.
Hypothesis locked : locked_out network.
Variable depth : nat.

(** The token request: five tries, then the last error. *)
Lemma locked_login st :
  exists e evs,
    login network (S depth) st = Some (Raise e, emit evs (set_login_timer
                                                            TOKEN_EXPIRATION_PERIOD
                                                            (with_credentials st)))
    /\ retried e = true
    /\ count_sent "GET" evs = 0%nat /\ count_sent "POST" evs = 5%nat
    /\ count_timers evs = 1%nat.
Proof.
  destruct locked as [_ Hpost].
  rewrite login_unfold. unfold token_call.
  rewrite (make_request_exhausts network depth "POST" _ VNone _ (or_intror eq_refl)
                                 (with_credentials st))
    by (intros h; apply Hpost; reflexivity).
  eexists _, _. split.
  { unfold armed, log, set_login_timer, emit. simpl. rewrite <- app_assoc. reflexivity. }
  split.
  { apply transient_error_retried, Hpost. reflexivity. }
  repeat split.
Qed.

(** One try of a GET: the 401, the failed login, and a retried error. *)
Lemma locked_try url params data st :
  exists e st' evs,
    make_request_body network (login network (S depth)) "GET" url params data st
    = Some (Raise e, st')
    /\ retried e = true
    /\ trace st' = (trace st ++ evs)%list
    /\ count_sent "GET" evs = 1%nat /\ count_sent "POST" evs = 5%nat
    /\ count_timers evs = 1%nat.
Proof.
  destruct (proj1 locked (trace st) (outgoing "GET" url data st) eq_refl) as (r & Hr & Hs).
  rewrite (body_unauthorized network _ "GET" url params data st (or_introl eq_refl) r Hr Hs).
  destruct (locked_login (log (Sent (outgoing "GET" url data st)) st))
    as (e & evs & Hl & He & Hg & Hp & Ht).
  rewrite Hl.
  eexists e, _, (Sent (outgoing "GET" url data st) :: evs).
  split; [reflexivity |]. split; [exact He |]. split; [| repeat split].
  - simpl. rewrite <- app_assoc. reflexivity.
  - change (Sent (outgoing "GET" url data st) :: evs)
      with ([Sent (outgoing "GET" url data st)] ++ evs)%list.
    rewrite count_sent_app, Hg. reflexivity.
  - change (Sent (outgoing "GET" url data st) :: evs)
      with ([Sent (outgoing "GET" url data st)] ++ evs)%list.
    rewrite count_sent_app, Hp. reflexivity.
  - change (Sent (outgoing "GET" url data st) :: evs)
      with ([Sent (outgoing "GET" url data st)] ++ evs)%list.
    rewrite count_timers_app, Ht. reflexivity.
Qed.

Lemma locked_retry url params data more :
  forall n st,
  exists e st' evs,
    retry 2 more n
          (make_request_body network (login network (S depth)) "GET" url params data) st
    = Some (Raise e, st')
    /\ retried e = true
    /\ trace st' = (trace st ++ evs)%list
    /\ count_sent "GET" evs = S more
    /\ count_sent "POST" evs = (5 * S more)%nat
    /\ count_timers evs = S more.
Proof.
  induction more as [| more IH]; intros n st;
    destruct (locked_try url params data st) as (e & st1 & evs & Hb & He & Ht & Hg & Hp & Hc).
  - exists e, st1, evs. rewrite (retry_gives_up _ _ _ _ _ _ Hb He).
    split; [reflexivity |]. split; [exact He |]. split; [exact Ht |].
    split; [exact Hg |]. split; [exact Hp | exact Hc].
  - rewrite (retry_again _ _ _ _ _ _ _ Hb He).
    destruct (IH (S n) (log (Backoff (expo 2 n)) st1))
      as (e2 & st2 & evs2 & Hr & He2 & Ht2 & Hg2 & Hp2 & Hc2).
    exists e2, st2, (evs ++ [Backoff (expo 2 n)] ++ evs2)%list.
    split; [exact Hr |]. split; [exact He2 |]. split; [| repeat split].
    + rewrite Ht2. simpl trace. rewrite Ht, <- !app_assoc. reflexivity.
    + rewrite !count_sent_app, Hg, Hg2. simpl. lia.
    + rewrite !count_sent_app, Hp, Hp2. simpl. lia.
    + rewrite !count_timers_app, Hc, Hc2. simpl. lia.
Qed.

End LockedOut.

(** X13: a retried failure of the re-login makes the decorator replay the
    request that got the 401, and every replay logs in again.  When every
    GET is answered by 401 and the token endpoint keeps failing with a
    retried error, one call of [make_request] sends the GET 5 times and the
    token request 25 times, starts 5 timers, and ends with the error of the
    token endpoint. *)
Theorem relogin_failures_multiply
        (network : list event -> request -> reply) (depth : nat)
        (url params data : value) (st : state) :
  locked_out network ->
  exists e st' evs,
    make_request network (S (S depth)) "GET" url params data st = Some (Raise e, st')
    /\ retried e = true
    /\ trace st' = (trace st ++ evs)%list
    /\ count_sent "GET" evs = 5%nat
    /\ count_sent "POST" evs = 25%nat
    /\ count_timers evs = 5%nat.
Proof.
  intros Hl. rewrite make_request_S. unfold on_exception.
  exact (locked_retry network Hl depth url params data 4 0 st).
Qed.

Lemma relogin_failures_multiply_witness :
  locked_out Cases.locked_out
  /\ exists e st' evs,
       make_request Cases.locked_out 2 "GET" Scenario.users_url VNone VNone Scenario.st0
       = Some (Raise e, st')
       /\ retried e = true
       /\ trace st' = (trace Scenario.st0 ++ evs)%list
       /\ count_sent "GET" evs = 5%nat
       /\ count_sent "POST" evs = 25%nat
       /\ count_timers evs = 5%nat.
Proof.
  assert (Hl : locked_out Cases.locked_out).
  { split; intros h q Hq; unfold Cases.locked_out; rewrite Hq.
    - eexists. split; reflexivity.
    - reflexivity. }
  split; [exact Hl |].
  exact (relogin_failures_multiply Cases.locked_out 0 Scenario.users_url VNone VNone
                                   Scenario.st0 Hl).
Defined.

(* ===================================================================== *)
(** ** What no method changes                                            *)
(* ===================================================================== *)














Section Invariant.

Variable network : list event -> request -> reply.









End Invariant.




(* ===================================================================== *)
(** ** Parsing a built URL                                               *)
(* ===================================================================== *)
Lemma substring_0_all (s : string) :
  forall m, (String.length s <= m)%nat -> substring 0 m s = s.
Proof.
  induction s as [| c s IH]; intros m Hm.
  - destruct m; reflexivity.
  - destruct m as [| m]; [simpl in Hm; lia |].
    simpl. rewrite IH; [reflexivity | simpl in Hm; lia].
Qed.

Lemma substring_skip (a b : string) :
  forall m, (String.length b <= m)%nat -> substring (String.length a) m (a ++ b) = b.
Proof.
  induction a as [| c a IH]; intros m Hm; simpl.
  - now apply substring_0_all.
  - now apply IH.
Qed.

Lemma length_append (a b : string) :
  String.length (a ++ b) = (String.length a + String.length b)%nat.
Proof. induction a as [| c a IH]; simpl; [reflexivity | now rewrite IH]. Qed.

Lemma from_app (a b : string) : from (String.length a) (a ++ b) = b.
Proof. unfold from. apply substring_skip. rewrite length_append. lia. Qed.

Lemma upto_app (a b : string) : upto (String.length a) (a ++ b) = a.
Proof.
  unfold upto. induction a as [| c a IH]; simpl.
  - destruct b; reflexivity.
  - now rewrite IH.
Qed.

Lemma contains_app (c : ascii) (a b : string) :
  contains c (a ++ b) = contains c a || contains c b.
Proof.
  induction a as [| x a IH]; simpl; [reflexivity |].
  now rewrite IH, orb_assoc.
Qed.

Lemma find_first (c : ascii) (a b : string) :
  contains c a = false -> find c (a ++ String c b) = Some (String.length a).
Proof.
  unfold find. induction a as [| x a IH]; intros H.
  - simpl. destruct (ascii_dec c c) as [_ | N]; [| now destruct N].
    destruct b; reflexivity.
  - simpl in H. apply orb_false_iff in H. destruct H as [Hx Ha].
    cbn [append index]. cbn [prefix str1].
    destruct (ascii_dec c x) as [-> | N].
    + rewrite Ascii.eqb_refl in Hx. discriminate.
    + rewrite (IH Ha). reflexivity.
Qed.



Lemma from_after (c : ascii) (a b : string) :
  from (S (String.length a)) (a ++ String c b) = b.
Proof.
  replace (a ++ String c b) with ((a ++ str1 c) ++ b)
    by (now rewrite append_assoc).
  replace (S (String.length a)) with (String.length (a ++ str1 c))
    by (rewrite length_append; simpl; lia).
  apply from_app.
Qed.

Lemma prefix_empty (s : string) : prefix EmptyString s = true.
Proof. destruct s; reflexivity. Qed.

Lemma index_skip (x a rest : string) :
  index (String.length a) x (a ++ rest)
  = match index 0 x rest with
    | Some n => Some (String.length a + n)%nat
    | None => None
    end.
Proof.
  induction a as [| c a IH]; simpl.
  - destruct (index 0 x rest); reflexivity.
  - rewrite IH. destruct (index 0 x rest); reflexivity.
Qed.

Lemma index_after (c : ascii) (a rest : string) (n : nat) :
  contains c a = false ->
  index 0 (str1 c) (a ++ rest) = Some n -> (String.length a <= n)%nat.
Proof.
  revert n. induction a as [| x a IH]; intros n Hc H; [simpl; lia |].
  simpl in Hc. apply orb_false_iff in Hc. destruct Hc as [Hx Ha].
  cbn [append index prefix str1] in H.
  destruct (ascii_dec c x) as [-> | N].
  - rewrite Ascii.eqb_refl in Hx. discriminate.
  - destruct (index 0 (str1 c) (a ++ rest)) as [m |] eqn:E; [| discriminate].
    injection H as <-. specialize (IH m Ha eq_refl). simpl. lia.
Qed.

Lemma netloc_end_graph (W : string) :
  netloc_end ("//graph.microsoft.com/" ++ W) 2 = 21%nat.
Proof.
  unfold netloc_end. cbn [fold_left].
  assert (Hlen : String.length ("//graph.microsoft.com/" ++ W)
                 = (22 + String.length W)%nat) by reflexivity.
  assert (Hidx : forall c,
             contains c "graph.microsoft.com" = false ->
             forall n, index 2 (str1 c) ("//graph.microsoft.com/" ++ W) = Some n ->
                       (21 <= n)%nat).
  { intros c Hc n H.
    change ("//graph.microsoft.com/" ++ W)
      with ("//" ++ ("graph.microsoft.com" ++ String "/" W)) in H.
    change 2%nat with (String.length "//") in H at 1.
    rewrite index_skip in H.
    destruct (index 0 (str1 c) ("graph.microsoft.com" ++ String "/" W)) as [m |] eqn:E;
      [| discriminate].
    injection H as <-. apply (index_after c _ _ m Hc) in E. simpl in *. lia. }
  assert (Hslash : index 2 (str1 "/"%char) ("//graph.microsoft.com/" ++ W) = Some 21%nat).
  { change ("//graph.microsoft.com/" ++ W)
      with ("//" ++ ("graph.microsoft.com" ++ String "/" W)).
    change 2%nat with (String.length "//") at 1.
    rewrite index_skip.
    change (index 0 (str1 "/"%char) ("graph.microsoft.com" ++ String "/" W))
      with (find "/"%char ("graph.microsoft.com" ++ String "/" W)).
    rewrite find_first by reflexivity. reflexivity. }
  rewrite Hslash, Hlen.
  replace (Nat.min (22 + String.length W) 21) with 21%nat by lia.
  destruct (index 2 (str1 "?"%char) ("//graph.microsoft.com/" ++ W)) as [i |] eqn:E1;
    [apply Hidx in E1; [| reflexivity]; replace (Nat.min 21 i) with 21%nat by lia |];
    (destruct (index 2 (str1 "#"%char) ("//graph.microsoft.com/" ++ W)) as [j |] eqn:E2;
     [apply Hidx in E2; [| reflexivity]; lia | reflexivity]).
Qed.

Lemma urlsplit_graph (t Q : string) :
  contains "?"%char t = false -> contains "#"%char t = false ->
  contains "#"%char Q = false ->
  urlsplit ("https://graph.microsoft.com/" ++ t
            ++ (if nonempty Q then "?" ++ Q else EmptyString))
  = Ret ("https", "graph.microsoft.com", "/" ++ t, Q, EmptyString).
Proof.
  intros Hq Hf HfQ.
  set (W := t ++ (if nonempty Q then "?" ++ Q else EmptyString)).
  unfold urlsplit.
  assert (E1 : find ":"%char ("https://graph.microsoft.com/" ++ W) = Some 5%nat).
  { change ("https://graph.microsoft.com/" ++ W)
      with ("https" ++ String ":" ("//graph.microsoft.com/" ++ W)).
    now rewrite find_first. }
  rewrite E1.
  assert (E2 : upto 5 ("https://graph.microsoft.com/" ++ W) = "https").
  { apply (upto_app "https"). }
  assert (E3 : from 6 ("https://graph.microsoft.com/" ++ W) = "//graph.microsoft.com/" ++ W).
  { apply (from_app "https:"). }
  rewrite E2, E3.
  change (forallb_str scheme_char "https") with true.
  change (lower "https") with "https".
  cbv beta iota.
  change (upto 2 ("//graph.microsoft.com/" ++ W) =? "//")%string with true.
  cbv beta iota. unfold _splitnetloc. rewrite netloc_end_graph.
  change (substring 2 (21 - 2) ("//graph.microsoft.com/" ++ W)) with "graph.microsoft.com".
  assert (E4 : from 21 ("//graph.microsoft.com/" ++ W) = String "/" W).
  { apply (from_app "//graph.microsoft.com"). }
  rewrite E4.
  cbv beta iota.
  change (contains "["%char "graph.microsoft.com" && negb (contains "]"%char "graph.microsoft.com")
          || contains "]"%char "graph.microsoft.com"
             && negb (contains "["%char "graph.microsoft.com")) with false.
  cbv beta iota.
  assert (E5 : contains "#"%char (String "/" W) = false).
  { subst W. change (String "/" (t ++ (if nonempty Q then "?" ++ Q else EmptyString)))
      with ("/" ++ t ++ (if nonempty Q then "?" ++ Q else EmptyString)).
    rewrite !contains_app, Hf. destruct (nonempty Q); [| reflexivity].
    rewrite contains_app, HfQ. reflexivity. }
  rewrite E5. cbv beta iota.
  subst W. destruct Q as [| c Q].
  - change (nonempty EmptyString) with false. cbv iota. rewrite append_empty_r.
    replace (contains "?"%char (String "/" t)) with false
      by (symmetry; simpl; exact Hq).
    reflexivity.
  - change (nonempty (String c Q)) with true. cbv iota.
    change (String "/" (t ++ "?" ++ String c Q))
      with (String "/" t ++ String "?" (String c Q)).
    replace (contains "?"%char (String "/" t ++ String "?" (String c Q))) with true
      by (symmetry; rewrite contains_app; simpl; now rewrite orb_true_r).
    unfold split1. rewrite find_first by (simpl; exact Hq).
    rewrite upto_app, from_after. reflexivity.
Qed.

Lemma urlparse_graph_url (t Q : string) :
  contains "?"%char t = false -> contains "#"%char t = false ->
  contains ";"%char t = false -> contains "#"%char Q = false ->
  urlparse ("https://graph.microsoft.com/" ++ t
            ++ (if nonempty Q then "?" ++ Q else EmptyString))
  = Ret (mkParseResult "https" "graph.microsoft.com" ("/" ++ t) EmptyString Q EmptyString).
Proof.
  intros Hq Hf Hs HfQ. unfold urlparse. rewrite urlsplit_graph by assumption.
  change (mem "https" uses_params) with true.
  replace (contains ";"%char ("/" ++ t)) with false by (symmetry; simpl; exact Hs).
  reflexivity.
Qed.

Lemma starts_with_slash (p : string) :
  (upto 1 p =? "/")%string = true -> exists t, p = String "/" t.
Proof.
  destruct p as [| c p]; [discriminate |].
  unfold upto. intros H.
  assert (E : substring 0 1 (String c p) = str1 c) by (destruct p; reflexivity).
  rewrite E in H. apply String.eqb_eq in H. injection H as ->. eauto.
Qed.

(** X15: a URL built on the Graph base parses back to what went into it,
    as long as the version and the endpoint have no [?], [#] or [;] (the
    path is put in as it is, only the arguments are escaped) and no tab, CR
    or LF (which later releases of the parser remove before they split):
    scheme and host of the base, the path [/version/endpoint], and as query
    exactly the encoded arguments, whatever characters the arguments
    hold. *)
Theorem built_url_parses_back
        (version endpoint : string) (args : dict) (url : string) :
  contains "?"%char (version ++ "/" ++ endpoint) = false ->
  contains "#"%char (version ++ "/" ++ endpoint) = false ->
  contains ";"%char (version ++ "/" ++ endpoint) = false ->
  contains (ascii_of_nat 9) (version ++ "/" ++ endpoint) = false ->
  contains (ascii_of_nat 10) (version ++ "/" ++ endpoint) = false ->
  contains (ascii_of_nat 13) (version ++ "/" ++ endpoint) = false ->
  build_url BASE_GRAPH_URL version endpoint args = Ret url ->
  urlparse url
  = Ret (mkParseResult "https" "graph.microsoft.com"
                       ((if (upto 1 (version ++ "/" ++ endpoint) =? "/")%string
                         then EmptyString else "/")
                        ++ version ++ "/" ++ endpoint)
                       EmptyString (urlencode args) EmptyString).
Proof.
  intros Hq Hf Hs _ _ _ H. rewrite build_url_graph in H.
  remember (version ++ "/" ++ endpoint) as p eqn:Hp.
  clear Hp. injection H as <-.
  assert (HQ : contains "#"%char (urlencode args) = false).
  { apply (forallb_str_excludes query_char); [reflexivity | apply urlencode_query_chars]. }
  destruct (upto 1 p =? "/")%string eqn:E.
  - destruct (starts_with_slash _ E) as [t ->].
    simpl in Hq, Hf, Hs.
    apply (urlparse_graph_url t (urlencode args)); assumption.
  - apply (urlparse_graph_url p (urlencode args)); assumption.
Qed.

Lemma built_url_parses_back_witness :
  let args := [("$top", VInt 10); ("$filter", VStr "name eq 'a#b?c'")] in
  build_url BASE_GRAPH_URL "v1.0" "users" args
  = Ret "https://graph.microsoft.com/v1.0/users?%24top=10&%24filter=name+eq+%27a%23b%3Fc%27"
  /\ urlparse "https://graph.microsoft.com/v1.0/users?%24top=10&%24filter=name+eq+%27a%23b%3Fc%27"
     = Ret (mkParseResult "https" "graph.microsoft.com" "/v1.0/users" EmptyString
                          (urlencode args) EmptyString).
Proof.
  intros args. split; [reflexivity |].
  apply (built_url_parses_back "v1.0" "users" args); reflexivity.
Defined.

(* ===================================================================== *)
(** ** A 401 whose re-login succeeds                                     *)
(* ===================================================================== *)

Lemma login_accepted network depth st r d :
  network (trace st)
          (mkRequest "POST" (VStr (TOKEN_URL (dict_get (config st) "tenant_id" VNone)))
                     [] (token_request_body st)) = Response r ->
  accepted (status_code r) = true ->
  json r = Some (VDict d) ->
  login network (S depth) st
  = Some (Ret tt,
          armed (set_access_token (dict_get d "access_token" VNone)
                   (log (Sent (mkRequest "POST"
                                 (VStr (TOKEN_URL (dict_get (config st) "tenant_id" VNone)))
                                 [] (token_request_body st)))
                        (with_credentials st)))).
Proof.
  intros Hr Ha Hj.
  rewrite login_unfold. destruct (token_call_request network depth st) as [-> Hq].
  rewrite (make_request_accepted network depth "POST" _ VNone _ (or_intror eq_refl)
                                 (with_credentials st) r);
    [| rewrite Hq; exact Hr | exact Ha].
  unfold response_json. rewrite Hj, Hq. reflexivity.
Qed.

(** X16: what a 401 does when the token endpoint then issues a token.  For
    any request and state: [make_request] sends the request, sends the
    token request, stores the new token, starts the timer, and then raises
    a [RuntimeError] with the body of the 401; the request is not sent a
    second time, but the client holds the new token, so a GET that the
    caller makes next carries it. *)
Theorem unauthorized_refreshes_then_raises
        (network : list event -> request -> reply) (depth : nat)
        (method : string) (url params data : value) (st : state)
        (r r2 : response) (d : dict) :
  let q := outgoing method url data st in
  let q2 := mkRequest "POST" (VStr (TOKEN_URL (dict_get (config st) "tenant_id" VNone)))
                      [] (token_request_body st) in
  let st' := armed (set_access_token (dict_get d "access_token" VNone)
                      (log (Sent q2) (with_credentials (log (Sent q) st)))) in
  method = "GET" \/ method = "POST" ->
  network (trace st) q = Response r ->
  status_code r = 401%Z ->
  network (trace st ++ [Sent q])%list q2 = Response r2 ->
  accepted (status_code r2) = true ->
  json r2 = Some (VDict d) ->
  make_request network (S (S depth)) method url params data st
  = Some (Raise (RuntimeError (text r)), st')
  /\ trace st' = (trace st ++ [Sent q; Sent q2; TimerStarted TOKEN_EXPIRATION_PERIOD])%list
  /\ access_token st' = dict_get d "access_token" VNone
  /\ forall url' data',
       lookup "Authorization" (req_headers (outgoing "GET" url' data' st'))
       = Some (VStr ("Bearer " ++ str (dict_get d "access_token" VNone))).
Proof.
  intros q q2 st' Hm Hr Hs Hr2 Ha Hj. split; [| split; [| split]].
  - apply (make_request_unauthorized network (S depth) method url params data Hm st r);
      [exact Hr | exact Hs |].
    apply (login_accepted network depth (log (Sent q) st) r2 d); assumption.
  - subst st'. simpl. rewrite <- !app_assoc. reflexivity.
  - reflexivity.
  - intros url' data'. apply get_has_authorization.
Qed.

Lemma unauthorized_refreshes_then_raises_witness :
  let network := scripted [status 401 "unauthorized"; ok Scenario.token_T2]
                          (ok (VDict Scenario.P2)) in
  let st' := armed (set_access_token (VStr "T2")
                      (log (Sent Scenario.token_request)
                           (with_credentials (log (Sent Scenario.get_users) Scenario.st0)))) in
  make_request network 2 "GET" Scenario.users_url VNone VNone Scenario.st0
  = Some (Raise (RuntimeError "unauthorized"), st')
  /\ trace st' = [Sent Scenario.get_users; Sent Scenario.token_request;
                  TimerStarted TOKEN_EXPIRATION_PERIOD]
  /\ access_token st' = VStr "T2"
  /\ forall url' data',
       lookup "Authorization" (req_headers (outgoing "GET" url' data' st'))
       = Some (VStr "Bearer T2").
Proof.
  intros network st'.
  apply (unauthorized_refreshes_then_raises
           network 0 "GET" Scenario.users_url VNone VNone Scenario.st0
           (mkResponse 401 "unauthorized" None)
           (mkResponse 200 "ok" (Some Scenario.token_T2))
           [("token_type", VStr "Bearer"); ("access_token", VStr "T2")]);
    [left; reflexivity | reflexivity | reflexivity | reflexivity | reflexivity | reflexivity].
Defined.
